(** * Boundary loading utilities: a shallow embedding of
      [notebooks/conflict/boundaries_utils.py]

    The module has two leaf functions over the [pycountry] database
    ([get_country_name_from_iso_code], [get_iso_code_from_country_name]) and
    one orchestrating function ([load_country_boundaries_to_dict]) that reads
    cached GeoJSON files into a dictionary keyed by country name.

    The embedding keeps the shape of the Python code:
    - a call either returns a value or raises ([outcome]);
    - every [print] and every call into [pycountry], [pathlib] or [geopandas]
      is recorded, in order, as an [event];
    - a Python function is a computation [M A] that reads the history of
      events so far and yields an outcome together with the events it adds;
    - the [pycountry] database, [pathlib], the [geopandas] reader and the
      parts of the interpreter the code relies on ([str.strip], [str.upper],
      the limit on [int] to [str] conversion) are interfaces (type
      classes): the code under study only calls them.  A [string] holds a
      text in UTF-8: a text of ASCII characters is a [string] whose
      characters are all below 128. *)

From Stdlib Require Import String Ascii List ZArith Bool Arith Lia DecimalString.
From Stdlib Require Import DecimalPos DecimalZ.
Import ListNotations.
Open Scope string_scope.
Open Scope list_scope.

Set Implicit Arguments.

(* ===================================================================== *)
(** ** Strings: what the interpreter does on ASCII text *)
(* ===================================================================== *)

Module PyStr.

(** [str.isspace] on one ASCII character: TAB, LF, VT, FF, CR, the four
    separators FS..US and the space. *)
Definition isspace (c : ascii) : bool :=
  let n := nat_of_ascii c in
  ((9 <=? n)%nat && (n <=? 13)%nat) || ((28 <=? n)%nat && (n <=? 32)%nat).

Definition islower (c : ascii) : bool :=
  let n := nat_of_ascii c in (97 <=? n)%nat && (n <=? 122)%nat.

Definition upper_char (c : ascii) : ascii :=
  if islower c then ascii_of_nat (nat_of_ascii c - 32) else c.

(** A text of ASCII characters only. *)
Fixpoint is_ascii (s : string) : bool :=
  match s with
  | EmptyString => true
  | String c s' => (nat_of_ascii c <? 128)%nat && is_ascii s'
  end.

(** Whether a lower-case ASCII letter occurs in [s]. *)
Fixpoint has_lower (s : string) : bool :=
  match s with
  | EmptyString => false
  | String c s' => islower c || has_lower s'
  end.

Fixpoint ascii_lstrip (s : string) : string :=
  match s with
  | EmptyString => EmptyString
  | String c s' => if isspace c then ascii_lstrip s' else s
  end.

Fixpoint ascii_rstrip (s : string) : string :=
  match s with
  | EmptyString => EmptyString
  | String c s' =>
      match ascii_rstrip s' with
      | EmptyString => if isspace c then EmptyString else String c EmptyString
      | r => String c r
      end
  end.

(** What [s.strip()] gives when [s] is a text of ASCII characters. *)
Definition ascii_strip (s : string) : string := ascii_rstrip (ascii_lstrip s).

(** What [s.upper()] gives when [s] is a text of ASCII characters. *)
Fixpoint ascii_upper (s : string) : string :=
  match s with
  | EmptyString => EmptyString
  | String c s' => String (upper_char c) (ascii_upper s')
  end.

(** The decimal form of an [int]: what [str(n)] gives when it returns. *)
Definition of_Z (z : Z) : string := NilZero.string_of_int (Z.to_int z).

(** [str(n)] for a length: [len] never exceeds [sys.maxsize], a number of
    19 digits, fewer than any limit on the conversion of an [int]. *)
Definition of_nat (n : nat) : string := NilZero.string_of_uint (Nat.to_uint n).

(** Truth value of a string: [if s:] holds for every non-empty string. *)
Definition truthy (s : string) : bool :=
  match s with EmptyString => false | String _ _ => true end.

(** The one-character string holding a line feed. *)
Definition nl : string := String (ascii_of_nat 10) EmptyString.

End PyStr.

(* ===================================================================== *)
(** ** Exceptions and outcomes *)
(* ===================================================================== *)

(** The classes below are all subclasses of [Exception]; [KeyError] and
    [IndexError] are the subclasses of [LookupError]. *)
Inductive exc_class : Type :=
| LookupError | KeyError | IndexError
| AttributeError | TypeError | ValueError | OSError | RuntimeError.

Record exception : Type := mkException {
  exc_type : exc_class;
  exc_str : string            (* [str(e)], as an f-string renders [{e}] *)
}.

(** [isinstance(e, LookupError)] *)
Definition is_LookupError (e : exception) : bool :=
  match exc_type e with
  | LookupError | KeyError | IndexError => true
  | _ => false
  end.

Inductive outcome (A : Type) : Type :=
| Returns (a : A)
| Raises (e : exception).

Arguments Returns {A} a.
Arguments Raises {A} e.

(* ===================================================================== *)
(** ** The external collaborators *)
(* ===================================================================== *)

(** A [pycountry] record, with the three attributes the code reads. *)
Record Country : Type := mkCountry {
  alpha_2 : string;
  alpha_3 : string;
  name : string
}.

(** [pycountry.countries]: exact lookups by code and the fuzzy search by
    name.  Each may raise. *)
Class Pycountry : Type := {
  countries_get_alpha_2 : string -> outcome (option Country);
  countries_get_alpha_3 : string -> outcome (option Country);
  countries_search_fuzzy : string -> outcome (list Country)
}.

(** The interpreter: [s.strip()] and [s.upper()] on any text, and
    [sys.get_int_max_str_digits()], the number of digits above which the
    conversion of an [int] to [str] raises (0 when there is no limit, 4300
    by default, and never a number between 1 and 639).  On ASCII text
    [strip] and [upper] are the functions of the module [PyStr]; on other
    text they follow the Unicode tables of the interpreter, which are not
    spelled out here. *)
Class Interpreter : Type := {
  str_strip : string -> string;
  str_upper : string -> string;
  int_max_str_digits : nat;
  str_strip_ascii :
    forall s, PyStr.is_ascii s = true -> str_strip s = PyStr.ascii_strip s;
  str_upper_ascii :
    forall s, PyStr.is_ascii s = true -> str_upper s = PyStr.ascii_upper s;
  int_max_str_digits_range :
    int_max_str_digits = 0%nat \/ (640 <= int_max_str_digits)%nat
}.

(** [pathlib]: [Path(s)], [p / s] and [str(p)]. *)
Class Pathlib : Type := {
  Path : Type;
  Path_of_str : string -> Path;
  truediv : Path -> string -> Path;
  Path_str : Path -> string
}.

(** What the process can observe and do outside itself. *)
Inductive event `{Pathlib} : Type :=
| Stdout (text : string)            (* [print(text)] *)
| SearchFuzzy (query : string)      (* [pycountry.countries.search_fuzzy] *)
| GetAlpha2 (code : string)         (* [pycountry.countries.get(alpha_2=..)] *)
| GetAlpha3 (code : string)         (* [pycountry.countries.get(alpha_3=..)] *)
| FsExists (p : Path)               (* [p.exists()] *)
| FsRead (p : Path)                 (* [gpd.read_file(p)] *)
| FsWrite (p : Path).               (* any call that creates or changes [p] *)

Definition history `{Pathlib} : Type := list event.

(** The cache directory and the [geopandas] reader.  The directory belongs
    to the outside world, so what a call observes may depend on when it is
    made: both operations take the history up to the call.  [p.exists()]
    answers [True] or [False], or raises ([pathlib] lets an [OSError] such
    as a denied permission or a name too long pass). *)
Class Geopandas `{Pathlib} : Type := {
  GeoDataFrame : Type;
  gdf_len : GeoDataFrame -> nat;                      (* [len(gdf)] *)
  isinstance_GeoDataFrame : GeoDataFrame -> bool;
  path_exists : history -> Path -> outcome bool;
  read_file : history -> Path -> outcome GeoDataFrame
}.

(* ===================================================================== *)
(** ** Computations *)
(* ===================================================================== *)

Section Computations.
Context `{Pathlib}.

(** A computation reads the history and yields an outcome and the events it
    adds to the history. *)
Definition M (A : Type) : Type := history -> outcome A * list event.

Definition ret {A} (a : A) : M A := fun _ => (Returns a, []).

Definition raise {A} (e : exception) : M A := fun _ => (Raises e, []).

Definition bind {A B} (m : M A) (k : A -> M B) : M B := fun h =>
  match m h with
  | (Returns a, es) => let (r, es') := k a (h ++ es) in (r, es ++ es')
  | (Raises e, es) => (Raises e, es)
  end.

(** [try: body  except Exception as e: handler e] *)
Definition try_except {A} (body : M A) (handler : exception -> M A) : M A :=
  fun h =>
    match body h with
    | (Returns a, es) => (Returns a, es)
    | (Raises e, es) => let (r, es') := handler e (h ++ es) in (r, es ++ es')
    end.

(** A call to a collaborator: the event is recorded, the answer may depend
    on the history before the call. *)
Definition call {A} (ev : event) (answer : history -> outcome A) : M A :=
  fun h => (answer h, [ev]).

(** [for x in xs: s = body s x] *)
Fixpoint for_each {A S} (xs : list A) (body : S -> A -> M S) (s : S) : M S :=
  match xs with
  | [] => ret s
  | x :: xs' => bind (body s x) (for_each xs' body)
  end.

Definition result {A} (r : outcome A * list event) : outcome A := fst r.
Definition events {A} (r : outcome A * list event) : list event := snd r.

End Computations.

Declare Scope py_scope.
Delimit Scope py_scope with py.
Notation "x <- m ;; k" := (bind m (fun x => k))
  (at level 61, m at next level, right associativity) : py_scope.
Notation "m ;; k" := (bind m (fun _ => k))
  (at level 61, right associativity) : py_scope.
Open Scope py_scope.

(* ===================================================================== *)
(** ** Dictionaries *)
(* ===================================================================== *)

(** A Python [dict] with string keys: the pairs in insertion order, one per
    key. *)
Module Dict.

Definition t (V : Type) : Type := list (string * V).

Definition empty {V} : t V := [].

(** [d[k] = v]: a new key goes to the end, a present key keeps its place
    and takes the new value. *)
Fixpoint setitem {V} (k : string) (v : V) (d : t V) : t V :=
  match d with
  | [] => [(k, v)]
  | (k', v') :: d' =>
      if String.eqb k k' then (k', v) :: d' else (k', v') :: setitem k v d'
  end.

(** [d.get(k)] *)
Fixpoint get {V} (k : string) (d : t V) : option V :=
  match d with
  | [] => None
  | (k', v') :: d' => if String.eqb k k' then Some v' else get k d'
  end.

(** [list(d.keys())] *)
Definition keys {V} (d : t V) : list string := map fst d.

(** Truth value of a dict: [if d:] holds for every non-empty dict. *)
Definition truthy {V} (d : t V) : bool :=
  match d with [] => false | _ :: _ => true end.

End Dict.

(* ===================================================================== *)
(** ** Python values and [str()] *)
(* ===================================================================== *)

(** The values a caller can pass where a string is expected.  An instance of
    a user class is known here by what its [__str__] method does. *)
Inductive pyvalue : Type :=
| PyNone
| PyBool (b : bool)
| PyInt (z : Z)
| PyStr (s : string)
| PyObject (dunder_str : outcome string).

Section Conversions.
Context `{PY : Interpreter}.

(** The number of decimal digits of [z], its sign apart. *)
Definition digits (z : Z) : nat := String.length (PyStr.of_Z (Z.abs z)).

(** Whether [str(z)] returns: there is no limit, or [z] has no more
    digits than the limit of the interpreter. *)
Definition printable (z : Z) : bool :=
  (int_max_str_digits =? 0)%nat || (digits z <=? int_max_str_digits)%nat.

(** What [str(z)] raises otherwise. *)
Definition int_str_error : exception :=
  mkException ValueError
    ("Exceeds the limit (" ++ PyStr.of_nat int_max_str_digits
     ++ " digits) for integer string conversion; use sys.set_int_max_str_digits() to increase the limit").

(** [str(z)] for an [int] *)
Definition str_of_int (z : Z) : outcome string :=
  if printable z then Returns (PyStr.of_Z z) else Raises int_str_error.

(** [str(v)] *)
Definition py_str (v : pyvalue) : outcome string :=
  match v with
  | PyNone => Returns "None"
  | PyBool true => Returns "True"
  | PyBool false => Returns "False"
  | PyInt z => str_of_int z
  | PyStr s => Returns s
  | PyObject r => r
  end.

End Conversions.

(** [output_base_folder: str | Path] *)
Inductive str_or_Path `{Pathlib} : Type :=
| AsStr (s : string)
| AsPath (p : Path).

(* ===================================================================== *)
(** ** The module [boundaries_utils] *)
(* ===================================================================== *)

(** *** The messages (the f-strings of the module, by line) *)

Section Messages.
Context `{PL : Pathlib}.

(** [ADM{target_adm_level}] *)
Definition adm (target_adm_level : Z) : string :=
  "ADM" ++ PyStr.of_Z target_adm_level.

(** Line 52. *)
Definition msg_code_lookup_error (iso_code : string) (e : exception) : string :=
  "An error occurred while looking up ISO code '" ++ iso_code ++ "': "
  ++ exc_str e.

(** Line 73. *)
Definition msg_name_lookup_error (country_name : string) (e : exception)
  : string :=
  "An error occurred while looking up ISO code for '" ++ country_name
  ++ "': " ++ exc_str e.

(** Line 102. *)
Definition msg_creating (target_adm_level : Z) : string :=
  PyStr.nl ++ "--- Creating dictionary: country_name -> boundary_gdf ("
  ++ adm target_adm_level ++ ") ---".

(** Line 111. *)
Definition msg_loading (country_name : string) (target_adm_level : Z)
    (cache_file_path : Path) : string :=
  "Loading boundary data for '" ++ country_name ++ "' ("
  ++ adm target_adm_level ++ ") from: " ++ Path_str cache_file_path.

(** Line 116. *)
Definition msg_loaded (country_name : string) (target_adm_level : Z) : string :=
  "Successfully loaded " ++ country_name ++ " (" ++ adm target_adm_level
  ++ ") as GeoDataFrame.".

(** Line 118. *)
Definition msg_read_error (country_name : string) (target_adm_level : Z)
    (cache_file_path : Path) (e : exception) : string :=
  "Error loading GeoDataFrame for " ++ country_name ++ " ("
  ++ adm target_adm_level ++ ") from file " ++ Path_str cache_file_path
  ++ ": " ++ exc_str e ++ ". Skipping.".

(** Line 120. *)
Definition msg_cache_miss (country_name : string) (target_adm_level : Z)
    (cache_file_path : Path) : string :=
  "Cache file not found for '" ++ country_name ++ "' ("
  ++ adm target_adm_level ++ ") at " ++ Path_str cache_file_path
  ++ ". Please ensure you have run the 'fetch_boundaries' function to download and save the data first.".

(** Line 122. *)
Definition msg_no_iso_code (country_name : string) : string :=
  "Could not find ISO code for '" ++ country_name
  ++ "'. Skipping this country.".

(** Line 124. *)
Definition msg_contents : string :=
  PyStr.nl ++ "--- Contents of the final country_boundaries_dict ---".

(** Line 128. *)
Definition msg_features (country_name : string) (n : nat)
    (target_adm_level : Z) : string :=
  "'" ++ country_name ++ "': Loaded GeoDataFrame with " ++ PyStr.of_nat n
  ++ " features for " ++ adm target_adm_level ++ ".".

(** Line 130. *)
Definition msg_not_gdf (country_name : string) (target_adm_level : Z)
  : string :=
  "'" ++ country_name ++ "': Data available but not a valid GeoDataFrame for "
  ++ adm target_adm_level ++ ".".

(** Line 132. *)
Definition msg_empty : string :=
  "The dictionary is empty. No boundary data could be loaded.".

End Messages.

(** *** The functions *)

Section BoundariesUtils.
Context `{PY : Interpreter} `{PL : Pathlib} `{PC : Pycountry}
        `{GP : @Geopandas PL}.

Definition print (text : string) : M unit :=
  fun _ => (Returns tt, [Stdout text]).

(** [class SimpleLogger] (lines 8-12) and its instance [logger] (line 14). *)
Definition logger_info (message : string) : M unit :=
  print ("INFO: " ++ message).

Definition logger_error (message : string) : M unit :=
  print ("ERROR: " ++ message).

(** [Path(output_base_folder)] *)
Definition Path_of (a : str_or_Path) : Path :=
  match a with
  | AsStr s => Path_of_str s
  | AsPath p => p
  end.

(** [str(iso_code)], as a step of a computation. *)
Definition str (v : pyvalue) : M string := fun _ => (py_str v, []).

(** An f-string in which [{target_adm_level}] stands: the level is
    converted with [str] first, which raises for a level of too many
    digits; [text] is what the f-string (or the expression around it)
    gives otherwise. *)
Definition fstring {A} (target_adm_level : Z) (text : A) : M A :=
  fun _ =>
    (match str_of_int target_adm_level with
     | Returns _ => Returns text
     | Raises e => Raises e
     end, []).

(** Lines 18-53. *)
Definition get_country_name_from_iso_code (iso_code : pyvalue)
  : M (option string) :=
  s <- str iso_code ;;
  let iso_code := str_upper (str_strip s) in
  try_except
    (country <- call (GetAlpha2 iso_code)
                     (fun _ => countries_get_alpha_2 iso_code) ;;
     match country with
     | Some c => ret (Some (name c))
     | None =>
         country <- call (GetAlpha3 iso_code)
                         (fun _ => countries_get_alpha_3 iso_code) ;;
         match country with
         | Some c => ret (Some (name c))
         | None => ret None
         end
     end)
    (fun e =>
       print (msg_code_lookup_error iso_code e) ;;
       ret None).

(** Lines 55-74. *)
Definition get_iso_code_from_country_name (country_name : string)
  : M (option string) :=
  try_except
    (country <- call (SearchFuzzy country_name)
                     (fun _ => countries_search_fuzzy country_name) ;;
     match country with
     | c :: _ => ret (Some (alpha_3 c))
     | [] => ret None
     end)
    (fun e =>
       if is_LookupError e then ret None
       else
         logger_error (msg_name_lookup_error country_name e) ;;
         ret None).

(** The f-string of line 108, when the level can be converted. *)
Definition cache_file_name (iso_code : string) (target_adm_level : Z)
    (release_type : string) : string :=
  iso_code ++ "_ADM" ++ PyStr.of_Z target_adm_level ++ "_" ++ release_type
  ++ ".geojson".

(** Line 108. *)
Definition cache_file_path (output_base_folder : Path) (iso_code : string)
    (target_adm_level : Z) (release_type : string) : Path :=
  truediv output_base_folder
          (cache_file_name iso_code target_adm_level release_type).

(** The body of the loop of lines 104-122, for one [country_name]; the
    dictionary built so far goes in and comes out.  The existence test of
    line 110 stands outside the [try] of line 112. *)
Definition load_one (target_adm_level : Z) (release_type : string)
    (output_base_folder : Path)
    (country_boundaries_dict : Dict.t GeoDataFrame) (country_name : string)
  : M (Dict.t GeoDataFrame) :=
  iso_code <- get_iso_code_from_country_name country_name ;;
  match iso_code with
  | Some iso_code =>
    if PyStr.truthy iso_code then
      cache_file_path <-
        fstring target_adm_level
                (cache_file_path output_base_folder iso_code target_adm_level
                                 release_type) ;;
      found <- call (FsExists cache_file_path)
                    (fun h => path_exists h cache_file_path) ;;
      if (found : bool) then
        m <- fstring target_adm_level
                     (msg_loading country_name target_adm_level
                                  cache_file_path) ;;
        logger_info m ;;
        try_except
          (boundary_gdf <- call (FsRead cache_file_path)
                                (fun h => read_file h cache_file_path) ;;
           let d := Dict.setitem country_name boundary_gdf
                                 country_boundaries_dict in
           m <- fstring target_adm_level
                        (msg_loaded country_name target_adm_level) ;;
           logger_info m ;;
           ret d)
          (fun e =>
             m <- fstring target_adm_level
                          (msg_read_error country_name target_adm_level
                                          cache_file_path e) ;;
             logger_error m ;;
             ret country_boundaries_dict)
      else
        m <- fstring target_adm_level
                     (msg_cache_miss country_name target_adm_level
                                     cache_file_path) ;;
        logger_info m ;;
        ret country_boundaries_dict
    else
      logger_info (msg_no_iso_code country_name) ;;
      ret country_boundaries_dict
  | None =>
      logger_info (msg_no_iso_code country_name) ;;
      ret country_boundaries_dict
  end.

(** The body of the loop of lines 126-130. *)
Definition report_one (target_adm_level : Z) (_ : unit)
    (item : string * GeoDataFrame) : M unit :=
  let (country_name, gdf) := item in
  if isinstance_GeoDataFrame gdf then
    m <- fstring target_adm_level
                 (msg_features country_name (gdf_len gdf) target_adm_level) ;;
    logger_info m
  else
    m <- fstring target_adm_level
                 (msg_not_gdf country_name target_adm_level) ;;
    logger_info m.

(** Lines 78-134. *)
Definition load_country_boundaries_to_dict
    (country_names_to_load : list string) (target_adm_level : Z)
    (release_type : string) (output_base_folder : str_or_Path)
  : M (Dict.t GeoDataFrame) :=
  let output_base_folder := Path_of output_base_folder in
  m <- fstring target_adm_level (msg_creating target_adm_level) ;;
  logger_info m ;;
  country_boundaries_dict <-
    for_each country_names_to_load
             (load_one target_adm_level release_type output_base_folder)
             Dict.empty ;;
  logger_info msg_contents ;;
  (if Dict.truthy country_boundaries_dict then
     for_each country_boundaries_dict (report_one target_adm_level) tt
   else
     logger_info msg_empty) ;;
  ret country_boundaries_dict.

(** The default values of the keyword arguments (lines 80-82). *)
Definition default_target_adm_level : Z := 0.
Definition default_release_type : string := "gbOpen".
Definition default_output_base_folder : str_or_Path :=
  AsStr "geoboundaries_output".

End BoundariesUtils.

(* ===================================================================== *)
(** ** What one run did, read off the collaborators *)
(* ===================================================================== *)

Section Outcomes.
Context `{PL : Pathlib} `{PC : Pycountry} `{GP : @Geopandas PL}.

(** The code a name resolves to: the [alpha_3] of the first fuzzy match. *)
Definition iso_code_of (country_name : string) : option string :=
  match countries_search_fuzzy country_name with
  | Returns (c :: _) => Some (alpha_3 c)
  | _ => None
  end.

(** How the loop body can end for one name: the four ways to skip it,
    the one way to load it, and the one way to leave the loop, when the
    existence test raises. *)
Inductive item_outcome : Type :=
| NameNotResolved                            (* no match, or an empty code *)
| ResolverError (e : exception)              (* the lookup itself failed *)
| TestError (p : Path) (e : exception)       (* [p.exists()] raised *)
| CacheMiss (p : Path)
| ReadFailure (p : Path) (e : exception)
| Loaded (p : Path) (g : GeoDataFrame).

Variables (target_adm_level : Z) (release_type : string)
          (output_base_folder : Path).

(** The history at the moment the loop body asks whether the file exists. *)
Definition at_exists (h : history) (country_name : string) : history :=
  h ++ [SearchFuzzy country_name].

(** The history at the moment the loop body reads the file. *)
Definition at_read (h : history) (country_name : string) (p : Path)
  : history :=
  h ++ [SearchFuzzy country_name; FsExists p;
        Stdout ("INFO: " ++ msg_loading country_name target_adm_level p)].




(** The way the loop body ends for [country_name] when it starts after [h]. *)
Definition classify (h : history) (country_name : string) : item_outcome :=
  match countries_search_fuzzy country_name with
  | Returns [] => NameNotResolved
  | Returns (c :: _) =>
      if PyStr.truthy (alpha_3 c) then
        let p := cache_file_path output_base_folder (alpha_3 c)
                                 target_adm_level release_type in
        match path_exists (at_exists h country_name) p with
        | Returns true =>
            match read_file (at_read h country_name p) p with
            | Returns g => Loaded p g
            | Raises e => ReadFailure p e
            end
        | Returns false => CacheMiss p
        | Raises e => TestError p e
        end
      else NameNotResolved
  | Raises e => if is_LookupError e then NameNotResolved else ResolverError e
  end.

(** The dictionary after the loop body, from the way it ended. *)
Definition after_item (d : Dict.t GeoDataFrame) (country_name : string)
    (o : item_outcome) : Dict.t GeoDataFrame :=
  match o with
  | Loaded _ g => Dict.setitem country_name g d
  | _ => d
  end.

(** Whether the pass leaves the loop, and the call, with an exception. *)
Definition stops (o : item_outcome) : bool :=
  match o with
  | TestError _ _ => true
  | _ => false
  end.

(** The events one pass of the loop body adds, from the way it ends (for
    a level that can be converted to [str]). *)
Definition item_events (h : history) (country_name : string) : list event :=
  let n := country_name in
  let lvl := target_adm_level in
  match classify h n with
  | NameNotResolved =>
      [SearchFuzzy n; Stdout ("INFO: " ++ msg_no_iso_code n)]
  | ResolverError e =>
      [SearchFuzzy n; Stdout ("ERROR: " ++ msg_name_lookup_error n e);
       Stdout ("INFO: " ++ msg_no_iso_code n)]
  | TestError p _ =>
      [SearchFuzzy n; FsExists p]
  | CacheMiss p =>
      [SearchFuzzy n; FsExists p;
       Stdout ("INFO: " ++ msg_cache_miss n lvl p)]
  | ReadFailure p e =>
      [SearchFuzzy n; FsExists p; Stdout ("INFO: " ++ msg_loading n lvl p);
       FsRead p; Stdout ("ERROR: " ++ msg_read_error n lvl p e)]
  | Loaded p _ =>
      [SearchFuzzy n; FsExists p; Stdout ("INFO: " ++ msg_loading n lvl p);
       FsRead p; Stdout ("INFO: " ++ msg_loaded n lvl)]
  end.

(** The way the loop ends for each name it gets to, in order; each name
    is judged after everything the earlier ones did, and a pass that
    raises is the last. *)
Fixpoint outcomes (h : history) (names : list string)
  : list (string * item_outcome) :=
  match names with
  | [] => []
  | n :: ns =>
      (n, classify h n)
      :: (if stops (classify h n) then []
          else outcomes (h ++ item_events h n) ns)
  end.

(** The exception with which the loop was left, if it was. *)
Fixpoint aborted (os : list (string * item_outcome)) : option exception :=
  match os with
  | [] => None
  | (_, TestError _ e) :: _ => Some e
  | _ :: os' => aborted os'
  end.

(** The names that were loaded, each with its record, in order. *)
Fixpoint successes (os : list (string * item_outcome))
  : list (string * GeoDataFrame) :=
  match os with
  | [] => []
  | (n, Loaded _ g) :: os' => (n, g) :: successes os'
  | _ :: os' => successes os'
  end.

(** The dictionary after the loop has dealt with every name. *)
Definition after_items (d : Dict.t GeoDataFrame)
    (os : list (string * item_outcome)) : Dict.t GeoDataFrame :=
  fold_left (fun d no => after_item d (fst no) (snd no)) os d.

(** The events the whole loop adds. *)
Fixpoint loop_events (h : history) (names : list string) : list event :=
  match names with
  | [] => []
  | n :: ns =>
      item_events h n
      ++ (if stops (classify h n) then []
          else loop_events (h ++ item_events h n) ns)
  end.

(** The files the reader was called on, from the way each pass ended. *)
Fixpoint read_paths (os : list (string * item_outcome)) : list Path :=
  match os with
  | [] => []
  | (_, Loaded p _) :: os' => p :: read_paths os'
  | (_, ReadFailure p _) :: os' => p :: read_paths os'
  | _ :: os' => read_paths os'
  end.


(** The lines of the closing report (lines 124-132). *)
Definition report_line (item : string * GeoDataFrame) : event :=
  Stdout ("INFO: " ++
          (if isinstance_GeoDataFrame (snd item)
           then msg_features (fst item) (gdf_len (snd item)) target_adm_level
           else msg_not_gdf (fst item) target_adm_level)).

Definition report_events (d : Dict.t GeoDataFrame) : list event :=
  match d with
  | [] => [Stdout ("INFO: " ++ msg_empty)]
  | _ :: _ => map report_line d
  end.


(** The files the loop read, in order. *)
Fixpoint reads (es : list event) : list Path :=
  match es with
  | [] => []
  | FsRead p :: es' => p :: reads es'
  | _ :: es' => reads es'
  end.


(** The texts printed, one for each call of [print], in order. *)
Fixpoint stdout (es : list event) : list string :=
  match es with
  | [] => []
  | Stdout l :: es' => l :: stdout es'
  | _ :: es' => stdout es'
  end.

End Outcomes.

(** The cache directory and the reader answer the same at all times. *)
Definition unchanging `{PL : Pathlib} (GP : @Geopandas PL) : Prop :=
  forall h h' p,
    path_exists h p = path_exists h' p /\ read_file h p = read_file h' p.

(** Assignments [d[k] = v] made in order, starting from [d]. *)
Definition assign_all {V} (kvs : list (string * V)) (d : Dict.t V) : Dict.t V :=
  fold_left (fun d kv => Dict.setitem (fst kv) (snd kv) d) kvs d.

(** [differs x y]: the string [y] is not [x]. *)
Definition differs (x : string) : string -> bool :=
  fun y => negb (String.eqb y x).

(** The distinct elements of a list, each at its first occurrence. *)
Fixpoint first_occurrences (l : list string) : list string :=
  match l with
  | [] => []
  | x :: l' => x :: filter (differs x) (first_occurrences l')
  end.

(** The value of the last pair with key [k]. *)
Fixpoint last_value {V} (k : string) (kvs : list (string * V)) : option V :=
  match kvs with
  | [] => None
  | (k', v) :: kvs' =>
      match last_value k kvs' with
      | Some v' => Some v'
      | None => if String.eqb k k' then Some v else None
      end
  end.

(* ===================================================================== *)
(** ** A small world to run the code in *)
(* ===================================================================== *)

Module Toy.

(** The interpreter with its default limit of 4300 digits.  It takes
    every text for ASCII text, which the texts of the runs below are. *)
#[export] Instance cpython : Interpreter := {|
  str_strip := PyStr.ascii_strip;
  str_upper := PyStr.ascii_upper;
  int_max_str_digits := 4300;
  str_strip_ascii := fun _ _ => eq_refl;
  str_upper_ascii := fun _ _ => eq_refl;
  int_max_str_digits_range := or_intror (proj1 (Nat.leb_le 640 4300) eq_refl)
|}.

(** An [int] of 4301 digits: 1 followed by 4300 zeros, [10 ** 4300]. *)
Definition huge_numeral : Decimal.uint :=
  Decimal.D1 (Nat.iter 4300 Decimal.D0 Decimal.Nil).

Definition huge : Z := Z.of_int (Decimal.Pos huge_numeral).

(** Paths as POSIX strings. *)
#[export] Instance posix : Pathlib := {|
  Path := string;
  Path_of_str := fun s => s;
  truediv := fun p s => (p ++ "/" ++ s)%string;
  Path_str := fun p => p
|}.

Definition canada : Country := mkCountry "CA" "CAN" "Canada".
Definition united_states : Country := mkCountry "US" "USA" "United States".

Definition unavailable : exception :=
  mkException RuntimeError "database unavailable".

(** Two countries; the queries "BOOM", "ERR" and "Atlantis" make the
    database fail, any other unknown name makes the fuzzy search raise
    [LookupError]. *)
#[export] Instance db : Pycountry := {|
  countries_get_alpha_2 := fun c =>
    if c =? "CA" then Returns (Some canada)
    else if c =? "US" then Returns (Some united_states)
    else if c =? "BOOM" then Raises unavailable
    else Returns None;
  countries_get_alpha_3 := fun c =>
    if c =? "CAN" then Returns (Some canada)
    else if c =? "USA" then Returns (Some united_states)
    else if c =? "ERR" then Raises unavailable
    else Returns None;
  countries_search_fuzzy := fun q =>
    if q =? "Canada" then Returns [canada]
    else if q =? "United States" then Returns [united_states; canada]
    else if q =? "Atlantis" then Raises unavailable
    else Raises (mkException LookupError q)
|}.

Definition can_file : string := "D/CAN_ADM0_gbOpen.geojson".
Definition usa_file : string := "D/USA_ADM0_gbOpen.geojson".

(** A frame is known by its number of features.  The directory [D] holds
    the file of Canada, with one feature, and a damaged file for the
    United States; nothing changes over time. *)
Definition still_cache : @Geopandas posix := {|
  GeoDataFrame := nat;
  gdf_len := fun g => g;
  isinstance_GeoDataFrame := fun _ => true;
  path_exists := fun _ p => Returns ((p =? can_file) || (p =? usa_file));
  read_file := fun _ p =>
    if p =? can_file then Returns 1%nat
    else if p =? usa_file then
      Raises (mkException ValueError "not a feature collection")
    else Raises (mkException OSError "no such file")
|}.

(** The same directory with a file of Canada that another process keeps
    extending: every read finds one feature more than the read before. *)
Definition growing_cache : @Geopandas posix := {|
  GeoDataFrame := nat;
  gdf_len := fun g => g;
  isinstance_GeoDataFrame := fun _ => true;
  path_exists := fun _ p => Returns ((p =? can_file) || (p =? usa_file));
  read_file := fun h p =>
    if p =? can_file then Returns (S (length (reads h)))
    else if p =? usa_file then
      Raises (mkException ValueError "not a feature collection")
    else Raises (mkException OSError "no such file")
|}.



(** An instance of a class whose [__str__] raises. *)
Definition unprintable : pyvalue :=
  PyObject (Raises (mkException ValueError "no string form")).

(** The loader with the default level and release type, on the
    directory [D]. *)
Definition load (GP : @Geopandas posix) (names : list string) (h : history)
  : outcome (Dict.t (@GeoDataFrame posix GP)) * list event :=
  @load_country_boundaries_to_dict cpython posix db GP names
    default_target_adm_level default_release_type (AsStr "D") h.

End Toy.

(* ===================================================================== *)
(** ** Further notions: printed texts, file names, traces *)
(* ===================================================================== *)

(** A string of white space only. *)
Fixpoint all_space (s : string) : bool :=
  match s with
  | EmptyString => true
  | String c s' => PyStr.isspace c && all_space s'
  end.

(** Whether the character [c] occurs in [s]. *)
Fixpoint has_char (c : ascii) (s : string) : bool :=
  match s with
  | EmptyString => false
  | String c' s' => Ascii.eqb c c' || has_char c s'
  end.

(** The two forms of a text printed by [SimpleLogger] (the argument of
    its call of [print]; a message may hold line feeds). *)
Definition is_info_text (text : string) : bool := String.prefix "INFO: " text.
Definition is_error_text (text : string) : bool :=
  String.prefix "ERROR: " text.

(** A text printed through the logger. *)
Definition logged (text : string) : bool :=
  is_info_text text || is_error_text text.

(** [d1.update(d2)]: the entries of [d2] assigned to [d1] in the order of
    [d2]. *)
Definition dict_update {V} (d1 d2 : Dict.t V) : Dict.t V := assign_all d2 d1.

Section Traces.
Context `{PL : Pathlib} `{PC : Pycountry} `{GP : @Geopandas PL}.

(** Whether a pass of the loop body ended with an exception caught and
    logged. *)
Definition raised (o : item_outcome) : bool :=
  match o with
  | ResolverError _ | ReadFailure _ _ => true
  | _ => false
  end.

(** The lines that close the output of the loader (lines 125-132), from
    the catalog it returns. *)
Definition closing_lines (target_adm_level : Z) (cat : Dict.t GeoDataFrame)
  : list string :=
  match cat with
  | [] => [("INFO: " ++ msg_empty)%string]
  | _ :: _ =>
      map (fun item : string * GeoDataFrame =>
             if isinstance_GeoDataFrame (snd item)
             then ("INFO: " ++ msg_features (fst item) (gdf_len (snd item))
                                            target_adm_level)%string
             else ("INFO: " ++ msg_not_gdf (fst item) target_adm_level)%string)
          cat
  end.



(** The lookups by code of a trace, in order. *)
Fixpoint code_lookups (es : list event) : list string :=
  match es with
  | [] => []
  | GetAlpha2 c :: es' => c :: code_lookups es'
  | GetAlpha3 c :: es' => c :: code_lookups es'
  | _ :: es' => code_lookups es'
  end.

End Traces.

(* ===================================================================== *)
(** ** Running the code: the computation rules *)
(* ===================================================================== *)

Section Rules.
Context `{PY : Interpreter} `{PL : Pathlib} `{PC : Pycountry}
        `{GP : @Geopandas PL}.

Lemma bind_returns {A B} (m : M A) (k : A -> M B) h a es :
  m h = (Returns a, es) ->
  bind m k h = (result (k a (h ++ es)), es ++ events (k a (h ++ es))).
Proof.
  intros Hm. unfold bind, result, events. rewrite Hm.
  destruct (k a (h ++ es)); reflexivity.
Qed.

Lemma bind_raises {A B} (m : M A) (k : A -> M B) h e es :
  m h = (Raises e, es) -> bind m k h = (Raises e, es).
Proof. intros Hm. unfold bind. rewrite Hm. reflexivity. Qed.

Lemma logger_info_run m h :
  logger_info m h = (Returns tt, [Stdout ("INFO: " ++ m)]).
Proof. reflexivity. Qed.

Lemma logger_error_run m h :
  logger_error m h = (Returns tt, [Stdout ("ERROR: " ++ m)]).
Proof. reflexivity. Qed.

(** An f-string with the level in it gives its text when the level can be
    converted, and raises otherwise; it prints nothing. *)
Lemma fstring_returns {A} lvl (text : A) h :
  printable lvl = true -> fstring lvl text h = (Returns text, []).
Proof. intros Hp. unfold fstring, str_of_int. now rewrite Hp. Qed.

Lemma fstring_raises {A} lvl (text : A) h :
  printable lvl = false -> fstring lvl text h = (Raises int_str_error, []).
Proof. intros Hp. unfold fstring, str_of_int. now rewrite Hp. Qed.

Lemma bind_fstring {A B} lvl (text : A) (k : A -> M B) h :
  printable lvl = true -> bind (fstring lvl text) k h = k text h.
Proof.
  intros Hp. rewrite (bind_returns _ _ _ (fstring_returns lvl text h Hp)).
  rewrite app_nil_r. unfold result, events.
  destruct (k text h); reflexivity.
Qed.

(** [get_iso_code_from_country_name] always returns: the code of the first
    match or [None]. *)
Lemma get_iso_code_result country_name h :
  result (get_iso_code_from_country_name country_name h)
  = Returns (iso_code_of country_name).
Proof.
  unfold get_iso_code_from_country_name, iso_code_of, try_except, bind, call,
    result.
  destruct (countries_search_fuzzy country_name) as [[|c cs]|e]; cbn;
    try reflexivity.
  destruct (is_LookupError e); reflexivity.
Qed.

Section Loop.
Variables (lvl : Z) (rel : string) (base : Path).
Hypothesis level_ok : printable lvl = true.

(** One pass of the loop body: it raises when the existence test raises,
    and returns otherwise; the dictionary it returns is decided by the way
    the pass ended. *)
Lemma load_one_run d n h :
  load_one lvl rel base d n h
  = (match classify lvl rel base h n with
     | TestError _ e => Raises e
     | o => Returns (after_item d n o)
     end,
     item_events lvl rel base h n).
Proof.
  unfold load_one, item_events, classify, get_iso_code_from_country_name,
    at_read, at_exists.
  unfold try_except, bind, call, logger_info, logger_error, print, ret,
    fstring, str_of_int.
  rewrite level_ok.
  destruct (countries_search_fuzzy n) as [[|c cs]|e];
    cbn [fst snd app after_item].
  - reflexivity.
  - destruct (PyStr.truthy (alpha_3 c)); cbn [fst snd app after_item];
      [|reflexivity].
    rewrite !app_nil_r.
    destruct (path_exists _ _) as [[|]|e]; cbn [fst snd app after_item];
      [|reflexivity|reflexivity].
    rewrite !app_nil_r. rewrite <- !app_assoc. cbn [app].
    destruct (read_file _ _); cbn [fst snd app after_item]; reflexivity.
  - destruct (is_LookupError e); reflexivity.
Qed.


Lemma load_one_events d n h :
  events (load_one lvl rel base d n h) = item_events lvl rel base h n.
Proof. now rewrite load_one_run. Qed.

Lemma aborted_cons n o os :
  aborted ((n, o) :: os)
  = match o with TestError _ e => Some e | _ => aborted os end.
Proof. destruct o; reflexivity. Qed.

(** The whole loop: it raises at the first pass that raises, and returns
    otherwise. *)
Lemma for_each_load_one names : forall d h,
  for_each names (load_one lvl rel base) d h
  = (match aborted (outcomes lvl rel base h names) with
     | Some e => Raises e
     | None => Returns (after_items d (outcomes lvl rel base h names))
     end,
     loop_events lvl rel base h names).
Proof.
  induction names as [|n ns IH]; intros d h.
  - reflexivity.
  - cbn [for_each outcomes loop_events]. rewrite aborted_cons.
    assert (Hone := load_one_run d n h).
    destruct (classify lvl rel base h n) eqn:Hc; cbn [stops];
      try (rewrite (bind_returns _ _ _ Hone), IH; reflexivity).
    rewrite (bind_raises _ _ _ Hone). now rewrite app_nil_r.
Qed.

(** The closing report returns. *)
Lemma for_each_report_one d : forall h,
  for_each d (report_one lvl) tt h = (Returns tt, map (report_line lvl) d).
Proof.
  induction d as [|[k g] d IH]; intros h.
  - reflexivity.
  - cbn [for_each map].
    assert (Hone : report_one lvl tt (k, g) h
                   = (Returns tt, [report_line lvl (k, g)])).
    { unfold report_one, report_line. cbn [fst snd].
      destruct (isinstance_GeoDataFrame g);
        now rewrite (bind_fstring _ _ _ _ level_ok). }
    rewrite (bind_returns _ _ _ Hone). rewrite IH. reflexivity.
Qed.

End Loop.

(** The whole function, for a level that can be converted: the header,
    the loop and, unless the loop raised, the closing report. *)
Lemma load_run names lvl rel folder h :
  printable lvl = true ->
  let base := Path_of folder in
  let h0 := h ++ [Stdout ("INFO: " ++ msg_creating lvl)] in
  let os := outcomes lvl rel base h0 names in
  let cat := after_items Dict.empty os in
  load_country_boundaries_to_dict names lvl rel folder h
  = match aborted os with
    | Some e =>
        (Raises e,
         Stdout ("INFO: " ++ msg_creating lvl)
         :: loop_events lvl rel base h0 names)
    | None =>
        (Returns cat,
         Stdout ("INFO: " ++ msg_creating lvl)
         :: loop_events lvl rel base h0 names
         ++ Stdout ("INFO: " ++ msg_contents) :: report_events lvl cat)
    end.
Proof.
  intros Hp base h0 os cat. unfold load_country_boundaries_to_dict.
  rewrite (bind_fstring _ _ _ _ Hp).
  rewrite (bind_returns _ _ _ (logger_info_run _ h)).
  fold base. fold h0.
  assert (Hloop := for_each_load_one lvl rel base Hp names Dict.empty h0).
  fold os in Hloop. fold cat in Hloop.
  destruct (aborted os) as [e|].
  - rewrite (bind_raises _ _ _ Hloop). reflexivity.
  - rewrite (bind_returns _ _ _ Hloop).
    rewrite (bind_returns _ _ _ (logger_info_run _ _)).
    set (h1 := (h0 ++ _) ++ _).
    assert (Hrep : (if Dict.truthy cat
                    then for_each cat (report_one lvl) tt
                    else logger_info msg_empty) h1
                   = (Returns tt, report_events lvl cat)).
    { destruct cat as [|kv cat'] eqn:E.
      - reflexivity.
      - cbn [Dict.truthy]. rewrite (for_each_report_one lvl Hp). reflexivity. }
    rewrite (bind_returns _ _ _ Hrep).
    unfold ret, result, events. cbn [fst snd app].
    rewrite app_nil_r. reflexivity.
Qed.

(** For a level that cannot be converted the function raises at line 102,
    before it prints anything. *)
Lemma load_run_level names lvl rel folder h :
  printable lvl = false ->
  load_country_boundaries_to_dict names lvl rel folder h
  = (Raises int_str_error, []).
Proof.
  intros Hp. unfold load_country_boundaries_to_dict.
  now rewrite (bind_raises _ _ _ (fstring_raises lvl _ h Hp)).
Qed.

(** A call that returns: the level could be converted, no pass raised and
    the catalog is the dictionary after the last pass. *)
Lemma load_returns_inv names lvl rel folder h cat :
  result (load_country_boundaries_to_dict names lvl rel folder h)
  = Returns cat ->
  let os := outcomes lvl rel (Path_of folder)
                     (h ++ [Stdout ("INFO: " ++ msg_creating lvl)]) names in
  printable lvl = true /\ aborted os = None /\
  cat = after_items Dict.empty os.
Proof.
  intros Hres os. destruct (printable lvl) eqn:Hp.
  - assert (Hrun := load_run names lvl rel folder h Hp). cbv zeta in Hrun.
    fold os in Hrun. rewrite Hrun in Hres.
    destruct (aborted os); [discriminate|].
    injection Hres as <-. tauto.
  - rewrite (load_run_level names lvl rel folder h Hp) in Hres. discriminate.
Qed.

End Rules.

(* ===================================================================== *)
(** ** Dictionaries: insertion order and overwriting *)
(* ===================================================================== *)

Section DictFacts.
Variable V : Type.
Implicit Types (d : Dict.t V) (k : string) (v : V).

Lemma keys_setitem_present k v d :
  In k (Dict.keys d) -> Dict.keys (Dict.setitem k v d) = Dict.keys d.
Proof.
  induction d as [|[k' v'] d IH]; cbn; intros Hin.
  - contradiction.
  - destruct (String.eqb_spec k k') as [->|Hne]; cbn.
    + reflexivity.
    + f_equal. apply IH. destruct Hin as [Heq|Hin]; [congruence|exact Hin].
Qed.

Lemma keys_setitem_fresh k v d :
  ~ In k (Dict.keys d) -> Dict.keys (Dict.setitem k v d) = Dict.keys d ++ [k].
Proof.
  induction d as [|[k' v'] d IH]; cbn; intros Hnin.
  - reflexivity.
  - destruct (String.eqb_spec k k') as [->|Hne]; cbn.
    + exfalso. apply Hnin. now left.
    + f_equal. apply IH. intros Hin. apply Hnin. now right.
Qed.

Lemma get_setitem k k' v d :
  Dict.get k (Dict.setitem k' v d)
  = if String.eqb k k' then Some v else Dict.get k d.
Proof.
  induction d as [|[k0 v0] d IH]; cbn.
  - reflexivity.
  - destruct (String.eqb_spec k' k0) as [->|Hne]; cbn.
    + destruct (String.eqb k k0); reflexivity.
    + rewrite IH.
      destruct (String.eqb_spec k k0) as [->|Hne0].
      * destruct (String.eqb_spec k0 k'); [congruence|reflexivity].
      * reflexivity.
Qed.

Lemma get_assign_all k kvs : forall d,
  Dict.get k (assign_all kvs d)
  = match last_value k kvs with
    | Some v => Some v
    | None => Dict.get k d
    end.
Proof.
  induction kvs as [|[k' v'] kvs IH]; intros d; cbn.
  - reflexivity.
  - unfold assign_all in *. rewrite IH. cbn [fst snd].
    destruct (last_value k kvs); [reflexivity|].
    rewrite get_setitem. destruct (String.eqb k k'); reflexivity.
Qed.

Lemma last_value_none k (kvs : list (string * V)) :
  last_value k kvs = None <-> ~ In k (map fst kvs).
Proof.
  induction kvs as [|[k' v'] kvs IH]; cbn.
  - tauto.
  - destruct (last_value k kvs) eqn:E.
    + split; [discriminate|]. intros Hn. exfalso.
      assert (Hin : In k (map fst kvs)).
      { destruct (in_dec string_dec k (map fst kvs)) as [Hi|Hi]; [exact Hi|].
        apply IH in Hi. discriminate. }
      apply Hn. now right.
    + destruct (String.eqb_spec k k') as [->|Hne].
      * split; [discriminate|]. intros Hn. exfalso. apply Hn. now left.
      * split; [|reflexivity]. intros _ [Heq|Hin]; [congruence|].
        now apply IH in Hin.
Qed.

Lemma get_none_not_key k d : Dict.get k d = None <-> ~ In k (Dict.keys d).
Proof.
  induction d as [|[k' v'] d IH]; cbn.
  - tauto.
  - destruct (String.eqb_spec k k') as [->|Hne].
    + split; [discriminate|]. intros Hn. exfalso. apply Hn. now left.
    + rewrite IH. split.
      * intros Hn [Heq|Hin]; [congruence|auto].
      * intros Hn Hin. apply Hn. now right.
Qed.

End DictFacts.

(** *** First occurrences *)

Lemma first_occurrences_cons x l :
  first_occurrences (x :: l) = x :: filter (differs x) (first_occurrences l).
Proof. reflexivity. Qed.

Lemma filter_differs_comm x y (l : list string) :
  filter (differs x) (filter (differs y) l)
  = filter (differs y) (filter (differs x) l).
Proof.
  induction l as [|z l IH]; cbn; [reflexivity|].
  destruct (differs y z) eqn:Ey, (differs x z) eqn:Ex; cbn;
    rewrite ?Ex, ?Ey, ?IH; reflexivity.
Qed.

Lemma filter_differs_idem x (l : list string) :
  filter (differs x) (filter (differs x) l) = filter (differs x) l.
Proof.
  induction l as [|z l IH]; cbn; [reflexivity|].
  destruct (differs x z) eqn:Ex; cbn; rewrite ?Ex, ?IH; reflexivity.
Qed.

Lemma first_occurrences_filter x l :
  first_occurrences (filter (differs x) l)
  = filter (differs x) (first_occurrences l).
Proof.
  induction l as [|z l IH]; [reflexivity|].
  rewrite first_occurrences_cons. cbn [filter].
  destruct (differs x z) eqn:Ex.
  - rewrite first_occurrences_cons, IH. rewrite filter_differs_comm.
    reflexivity.
  - assert (z = x) as ->.
    { unfold differs in Ex. apply negb_false_iff in Ex.
      now apply String.eqb_eq in Ex. }
    rewrite IH. now rewrite filter_differs_idem.
Qed.

Lemma in_first_occurrences x l : In x (first_occurrences l) <-> In x l.
Proof.
  induction l as [|z l IH]; [reflexivity|].
  rewrite first_occurrences_cons. cbn [In]. rewrite filter_In, IH.
  unfold differs. destruct (String.eqb_spec x z) as [->|Hne]; cbn.
  - tauto.
  - split; [tauto|]. intros [Heq|Hin]; [congruence|auto].
Qed.

Lemma NoDup_first_occurrences l : NoDup (first_occurrences l).
Proof.
  induction l as [|z l IH]; [constructor|].
  rewrite first_occurrences_cons. constructor.
  - rewrite filter_In. unfold differs. rewrite String.eqb_refl. cbn.
    intros [_ Hf]. discriminate.
  - now apply NoDup_filter.
Qed.

Lemma first_occurrences_NoDup l : NoDup l -> first_occurrences l = l.
Proof.
  induction 1 as [|x l Hnin Hnd IH]; [reflexivity|].
  rewrite first_occurrences_cons, IH. f_equal.
  apply forallb_filter_id. apply forallb_forall. intros y Hy. unfold differs.
  destruct (String.eqb_spec y x) as [->|Hne]; [contradiction|reflexivity].
Qed.

Lemma first_occurrences_app_seen x l r :
  In x l -> first_occurrences (l ++ x :: r) = first_occurrences (l ++ r).
Proof.
  induction l as [|z l IH]; cbn [app]; intros Hin; [contradiction|].
  rewrite !first_occurrences_cons. f_equal.
  destruct (string_dec z x) as [->|Hne].
  - rewrite <- !first_occurrences_filter. f_equal.
    rewrite !filter_app. cbn [filter]. unfold differs at 2.
    rewrite String.eqb_refl. reflexivity.
  - destruct Hin as [Heq|Hin]; [congruence|]. now rewrite IH.
Qed.

Lemma NoDup_keys_setitem V k (v : V) d :
  NoDup (Dict.keys d) -> NoDup (Dict.keys (Dict.setitem k v d)).
Proof.
  intros Hnd. destruct (in_dec string_dec k (Dict.keys d)) as [Hin|Hnin].
  - now rewrite keys_setitem_present.
  - rewrite keys_setitem_fresh by exact Hnin.
    apply NoDup_app; [exact Hnd|repeat constructor; intros []|].
    intros y Hy [<-|[]]. contradiction.
Qed.

(** The keys after a run of assignments are the assigned keys, each at the
    place of its first assignment. *)
Lemma keys_assign_all_from V (kvs : list (string * V)) : forall d,
  NoDup (Dict.keys d) ->
  Dict.keys (assign_all kvs d)
  = first_occurrences (Dict.keys d ++ map fst kvs).
Proof.
  induction kvs as [|[k v] kvs IH]; intros d Hnd; cbn [map fst].
  - rewrite app_nil_r. cbn. symmetry. now apply first_occurrences_NoDup.
  - unfold assign_all in *. cbn [fold_left fst snd].
    rewrite IH by now apply NoDup_keys_setitem.
    destruct (in_dec string_dec k (Dict.keys d)) as [Hin|Hnin].
    + rewrite keys_setitem_present by exact Hin.
      now rewrite first_occurrences_app_seen.
    + rewrite keys_setitem_fresh by exact Hnin.
      now rewrite <- app_assoc.
Qed.

Lemma keys_assign_all V (kvs : list (string * V)) :
  Dict.keys (assign_all kvs Dict.empty) = first_occurrences (map fst kvs).
Proof. apply (@keys_assign_all_from V kvs Dict.empty). constructor. Qed.

(* ===================================================================== *)
(** ** The loop, name by name *)
(* ===================================================================== *)

Section LoopFacts.
Context `{PL : Pathlib} `{PC : Pycountry} `{GP : @Geopandas PL}.
Variables (lvl : Z) (rel : string) (base : Path).


Lemma reads_app (es es' : list event) :
  reads (es ++ es') = reads es ++ reads es'.
Proof.
  induction es as [|e es IH]; [reflexivity|].
  destruct e; cbn; rewrite IH; reflexivity.
Qed.

Lemma stdout_app (es es' : list event) :
  stdout (es ++ es') = stdout es ++ stdout es'.
Proof.
  induction es as [|e es IH]; [reflexivity|].
  destruct e; cbn; rewrite IH; reflexivity.
Qed.



(** The passes made are those of the first names of the list, in order. *)
Lemma outcomes_prefix names : forall h,
  exists rest, names = map fst (outcomes lvl rel base h names) ++ rest.
Proof.
  induction names as [|n ns IH]; intros h; [now exists []|].
  cbn [outcomes map fst]. destruct (stops _).
  - now exists ns.
  - destruct (IH (h ++ item_events lvl rel base h n)) as (rest & Hr).
    exists rest. cbn [app]. now rewrite <- Hr.
Qed.





Lemma reads_report cat : reads (report_events lvl cat) = [].
Proof.
  destruct cat as [|kv cat]; [reflexivity|].
  unfold report_events. generalize (kv :: cat). intros l.
  induction l as [|x l IH]; [reflexivity|exact IH].
Qed.

Lemma reads_loop_events names : forall h,
  reads (loop_events lvl rel base h names)
  = read_paths (outcomes lvl rel base h names).
Proof.
  induction names as [|n ns IH]; intros h; [reflexivity|].
  cbn [loop_events outcomes]. rewrite reads_app. unfold item_events.
  destruct (classify lvl rel base h n) eqn:Hc; cbn [stops];
    rewrite ?IH; reflexivity.
Qed.

Lemma after_items_successes os : forall d,
  after_items d os = assign_all (successes os) d.
Proof.
  unfold after_items, assign_all.
  induction os as [|[n o] os IH]; intros d; [reflexivity|].
  cbn [fold_left fst snd]. rewrite IH.
  destruct o; reflexivity.
Qed.



Lemma successes_names os :
  forall n, In n (map fst (successes os)) ->
            exists o, In (n, o) os /\ exists p g, o = Loaded p g.
Proof.
  induction os as [|[m o] os IH]; intros n; cbn; [contradiction|].
  destruct o; cbn; try (intros Hin; destruct (IH _ Hin) as (o & Ho & Hs);
                        exists o; split; [now right|exact Hs]).
  intros [<-|Hin].
  - eexists. split; [now left|now eexists; eexists].
  - destruct (IH _ Hin) as (o & Ho & Hs). exists o. split; [now right|exact Hs].
Qed.



End LoopFacts.

(* ===================================================================== *)
(** ** The loader: [load_country_boundaries_to_dict] *)
(* ===================================================================== *)

Section Loader.
Context `{PY : Interpreter} `{PL : Pathlib} `{PC : Pycountry}
        `{GP : @Geopandas PL}.



(** What a call that returns has printed and asked. *)
Lemma load_returns_events names lvl rel folder h cat :
  result (load_country_boundaries_to_dict names lvl rel folder h)
  = Returns cat ->
  let base := Path_of folder in
  let h0 := h ++ [Stdout ("INFO: " ++ msg_creating lvl)] in
  events (load_country_boundaries_to_dict names lvl rel folder h)
  = Stdout ("INFO: " ++ msg_creating lvl)
    :: loop_events lvl rel base h0 names
    ++ Stdout ("INFO: " ++ msg_contents) :: report_events lvl cat.
Proof.
  intros Hres base h0.
  destruct (load_returns_inv _ _ _ _ _ Hres) as (Hp & Ha & ->).
  assert (Hrun := load_run names lvl rel folder h Hp). cbv zeta in Hrun.
  rewrite Ha in Hrun. now rewrite Hrun.
Qed.






(** The passes made are passes for names of the list. *)
Lemma outcomes_in_names lvl rel base names h n o :
  In (n, o) (outcomes lvl rel base h names) -> In n names.
Proof.
  intros Hin. destruct (outcomes_prefix lvl rel base names h) as (rest & Hr).
  rewrite Hr. apply in_or_app. left.
  change n with (fst (n, o)). now apply in_map.
Qed.







(** The events of any call: none for a level that cannot be converted;
    else the header, the loop and, unless the loop raised, the report. *)
Lemma load_events names lvl rel folder h :
  let base := Path_of folder in
  let h0 := h ++ [Stdout ("INFO: " ++ msg_creating lvl)] in
  let os := outcomes lvl rel base h0 names in
  events (load_country_boundaries_to_dict names lvl rel folder h)
  = if printable lvl then
      Stdout ("INFO: " ++ msg_creating lvl)
      :: loop_events lvl rel base h0 names
      ++ match aborted os with
         | Some _ => []
         | None =>
             Stdout ("INFO: " ++ msg_contents)
             :: report_events lvl (after_items Dict.empty os)
         end
    else [].
Proof.
  intros base h0 os. destruct (printable lvl) eqn:Hp.
  - assert (Hrun := load_run names lvl rel folder h Hp). cbv zeta in Hrun.
    fold base in Hrun. fold h0 in Hrun. fold os in Hrun. rewrite Hrun.
    destruct (aborted os); [|reflexivity].
    unfold events. cbn [snd]. now rewrite app_nil_r.
  - now rewrite (load_run_level names lvl rel folder h Hp).
Qed.



Lemma classify_unchanging lvl rel base h h' n :
  unchanging GP ->
  classify lvl rel base h n = classify lvl rel base h' n.
Proof.
  intros U. unfold classify.
  destruct (countries_search_fuzzy n) as [[|c cs]|e]; try reflexivity.
  destruct (PyStr.truthy (alpha_3 c)); [|reflexivity].
  cbv zeta. set (p := cache_file_path base (alpha_3 c) lvl rel).
  rewrite (proj1 (U (at_exists h n) (at_exists h' n) p)).
  destruct (path_exists _ _) as [[|]|e]; [|reflexivity|reflexivity].
  now rewrite (proj2 (U (at_read lvl h n p) (at_read lvl h' n p) p)).
Qed.

Lemma outcomes_unchanging lvl rel base names :
  unchanging GP ->
  forall h h', outcomes lvl rel base h names = outcomes lvl rel base h' names.
Proof.
  intros U. induction names as [|n ns IH]; intros h h'; [reflexivity|].
  cbn [outcomes]. rewrite (classify_unchanging lvl rel base h h' n U).
  f_equal. destruct (stops _); [reflexivity|apply IH].
Qed.

(** C8.  When the cache directory and the reader answer the same at all
    times, a second call with the same arguments, made after the first one
    and against the same database, ends as the first one did; when the
    first returns a catalog, the second returns the same catalog: the same
    keys in the same order, and for each key an equal record. *)
Theorem load_twice_same_catalog names lvl rel folder h :
  unchanging GP ->
  let first := load_country_boundaries_to_dict names lvl rel folder h in
  let second :=
    load_country_boundaries_to_dict names lvl rel folder (h ++ events first) in
  result second = result first /\
  forall cat1,
    result first = Returns cat1 ->
    exists cat2,
      result second = Returns cat2 /\
      Dict.keys cat1 = Dict.keys cat2 /\
      (forall k, Dict.get k cat1 = Dict.get k cat2) /\
      cat1 = cat2.
Proof.
  intros U first second.
  assert (Hsame : result second = result first).
  { subst first second. destruct (printable lvl) eqn:Hp.
    - assert (H1 := load_run names lvl rel folder h Hp).
      assert (H2 := load_run names lvl rel folder
                      (h ++ events (load_country_boundaries_to_dict
                                      names lvl rel folder h)) Hp).
      cbv zeta in H1, H2. rewrite H2.
      rewrite (outcomes_unchanging lvl rel (Path_of folder) names U
                 ((h ++ events (load_country_boundaries_to_dict
                                  names lvl rel folder h))
                  ++ [Stdout ("INFO: " ++ msg_creating lvl)])
                 (h ++ [Stdout ("INFO: " ++ msg_creating lvl)])).
      rewrite H1. now destruct (aborted _).
    - now rewrite !load_run_level. }
  split; [exact Hsame|].
  intros cat1 H1. exists cat1. rewrite Hsame. repeat split. exact H1.
Qed.

Lemma last_value_split V k (v : V) kvs :
  last_value k kvs = Some v ->
  exists l1 l2, kvs = l1 ++ (k, v) :: l2 /\ ~ In k (map fst l2).
Proof.
  induction kvs as [|[k' v'] kvs IH]; cbn; [discriminate|].
  destruct (last_value k kvs) as [v''|] eqn:E.
  - intros [= <-]. destruct (IH eq_refl) as (l1 & l2 & -> & Hn).
    now exists ((k', v') :: l1), l2.
  - destruct (String.eqb_spec k k') as [<-|Hne]; [|discriminate].
    intros [= <-]. exists [], kvs. split; [reflexivity|].
    now apply last_value_none.
Qed.

(** C9.  In a call that returns, when a name passes the three gates more
    than once, the catalog has one entry for it, and the record of that
    entry is the one the reader returned for the last of these passes;
    every pass that got as far as the reader made a read of its own. *)
Theorem repeated_name_keeps_last_record names lvl rel folder h n cat :
  let base := Path_of folder in
  let h0 := h ++ [Stdout ("INFO: " ++ msg_creating lvl)] in
  let os := outcomes lvl rel base h0 names in
  let run := load_country_boundaries_to_dict names lvl rel folder h in
  result run = Returns cat ->
  (1 < count_occ string_dec (map fst (successes os)) n)%nat ->
  exists g,
    count_occ string_dec (Dict.keys cat) n = 1%nat /\
    Dict.get n cat = Some g /\
    (exists earlier later,
        successes os = earlier ++ (n, g) :: later /\
        ~ In n (map fst later)) /\
    reads (events run) = read_paths os.
Proof.
  intros base h0 os run Hres Hcount.
  assert (Hev := load_returns_events _ _ _ _ _ Hres). cbv zeta in Hev.
  destruct (load_returns_inv _ _ _ _ _ Hres) as (Hp & Ha & Hcat).
  fold base in Hev, Ha, Hcat. fold h0 in Hev, Ha, Hcat.
  fold os in Ha, Hcat. fold run in Hev.
  rewrite after_items_successes in Hcat.
  assert (Hin : In n (map fst (successes os))).
  { apply (count_occ_In string_dec). lia. }
  destruct (last_value n (successes os)) as [g|] eqn:Hlast.
  2:{ apply last_value_none in Hlast. contradiction. }
  exists g. rewrite Hcat.
  split; [|split; [|split]].
  - rewrite keys_assign_all.
    apply NoDup_count_occ'; [apply NoDup_first_occurrences|].
    now apply in_first_occurrences.
  - rewrite get_assign_all, Hlast. reflexivity.
  - now apply last_value_split.
  - rewrite Hev. cbn [reads].
    rewrite reads_app. cbn [reads].
    rewrite reads_loop_events, reads_report. apply app_nil_r.
Qed.

End Loader.

(* ===================================================================== *)
(** ** Trimming and upper-casing ASCII text *)
(* ===================================================================== *)

Module PyStrFacts.
Import PyStr.
Local Open Scope string_scope.

Lemma upper_char_idem c : upper_char (upper_char c) = upper_char c.
Proof. destruct c as [[] [] [] [] [] [] [] []]; reflexivity. Qed.

Lemma isspace_upper_char c : isspace (upper_char c) = isspace c.
Proof. destruct c as [[] [] [] [] [] [] [] []]; reflexivity. Qed.

(** Upper-casing leaves no lower-case letter. *)
Lemma islower_upper_char c : islower (upper_char c) = false.
Proof. destruct c as [[] [] [] [] [] [] [] []]; reflexivity. Qed.

(** It changes lower-case letters only. *)
Lemma upper_char_other c : islower c = false -> upper_char c = c.
Proof. unfold upper_char. now intros ->. Qed.

Lemma upper_char_ascii c :
  (nat_of_ascii (upper_char c) <? 128)%nat = (nat_of_ascii c <? 128)%nat.
Proof. destruct c as [[] [] [] [] [] [] [] []]; reflexivity. Qed.

Lemma upper_idem s : ascii_upper (ascii_upper s) = ascii_upper s.
Proof.
  induction s as [|c s IH]; [reflexivity|].
  cbn [ascii_upper]. now rewrite upper_char_idem, IH.
Qed.

Lemma has_lower_upper s : has_lower (ascii_upper s) = false.
Proof.
  induction s as [|c s IH]; [reflexivity|].
  cbn [ascii_upper has_lower]. now rewrite islower_upper_char, IH.
Qed.

Lemma upper_no_lower s : has_lower s = false -> ascii_upper s = s.
Proof.
  induction s as [|c s IH]; [reflexivity|].
  cbn [ascii_upper has_lower]. intros H. apply orb_false_elim in H.
  destruct H as [Hc Hs]. now rewrite (upper_char_other _ Hc), (IH Hs).
Qed.

Lemma length_upper s : String.length (ascii_upper s) = String.length s.
Proof. induction s as [|c s IH]; cbn; congruence. Qed.

Lemma is_ascii_upper s : is_ascii (ascii_upper s) = is_ascii s.
Proof.
  induction s as [|c s IH]; [reflexivity|].
  cbn [ascii_upper is_ascii]. now rewrite upper_char_ascii, IH.
Qed.

Lemma is_ascii_app s t : is_ascii (s ++ t) = is_ascii s && is_ascii t.
Proof.
  induction s as [|c s IH]; [reflexivity|].
  cbn [append is_ascii]. now rewrite IH, andb_assoc.
Qed.

Lemma is_ascii_lstrip s : is_ascii s = true -> is_ascii (ascii_lstrip s) = true.
Proof.
  induction s as [|c s IH]; [reflexivity|].
  cbn [ascii_lstrip]. destruct (isspace c); [|exact (fun H => H)].
  cbn [is_ascii]. intros H. apply andb_prop in H. now apply IH.
Qed.

Lemma is_ascii_rstrip s : is_ascii s = true -> is_ascii (ascii_rstrip s) = true.
Proof.
  induction s as [|c s IH]; [reflexivity|].
  cbn [ascii_rstrip is_ascii]. intros H. apply andb_prop in H.
  destruct H as [Hc Hs]. specialize (IH Hs).
  destruct (ascii_rstrip s) as [|c' r].
  - destruct (isspace c); [reflexivity|]. cbn [is_ascii]. now rewrite Hc.
  - cbn [is_ascii] in *. now rewrite Hc, IH.
Qed.

Lemma is_ascii_strip s : is_ascii s = true -> is_ascii (ascii_strip s) = true.
Proof.
  intros H. unfold ascii_strip. now apply is_ascii_rstrip, is_ascii_lstrip.
Qed.

Lemma lstrip_upper s : ascii_lstrip (ascii_upper s) = ascii_upper (ascii_lstrip s).
Proof.
  induction s as [|c s IH]; [reflexivity|].
  cbn [ascii_upper ascii_lstrip]. rewrite isspace_upper_char.
  destruct (isspace c); [exact IH|reflexivity].
Qed.

Lemma rstrip_upper s : ascii_rstrip (ascii_upper s) = ascii_upper (ascii_rstrip s).
Proof.
  induction s as [|c s IH]; [reflexivity|].
  cbn [ascii_upper ascii_rstrip]. rewrite IH, isspace_upper_char.
  destruct (ascii_rstrip s) as [|c' r]; cbn [ascii_upper].
  - destruct (isspace c); reflexivity.
  - reflexivity.
Qed.

Lemma strip_upper s : ascii_strip (ascii_upper s) = ascii_upper (ascii_strip s).
Proof. unfold ascii_strip. now rewrite lstrip_upper, rstrip_upper. Qed.

(** What [lstrip] returns does not start with white space. *)
Lemma lstrip_head s c r : ascii_lstrip s = String c r -> isspace c = false.
Proof.
  induction s as [|c' s IH]; cbn [ascii_lstrip]; [discriminate|].
  destruct (isspace c') eqn:E; [exact IH|].
  intros [= <- <-]. exact E.
Qed.

(** [rstrip] keeps a first character that is not white space. *)
Lemma rstrip_head c r :
  isspace c = false -> exists r', ascii_rstrip (String c r) = String c r'.
Proof.
  intros E. cbn [ascii_rstrip]. rewrite E.
  destruct (ascii_rstrip r); eexists; reflexivity.
Qed.

(** What [rstrip] returns does not end with white space. *)
Lemma rstrip_last s : forall r c,
  ascii_rstrip s = r ++ String c EmptyString -> isspace c = false.
Proof.
  induction s as [|a s IH]; intros r c; cbn [ascii_rstrip].
  - destruct r; discriminate.
  - destruct (ascii_rstrip s) as [|b r'] eqn:E.
    + destruct (isspace a) eqn:Ea.
      * destruct r; discriminate.
      * destruct r as [|a' [|b' r0]]; cbn [append]; try discriminate.
        now intros [= <-].
    + destruct r as [|a' r0]; cbn [append]; [discriminate|].
      intros [= _ H]. now apply (IH r0 c).
Qed.

Lemma rstrip_idem s : ascii_rstrip (ascii_rstrip s) = ascii_rstrip s.
Proof.
  induction s as [|c s IH]; [reflexivity|].
  cbn [ascii_rstrip]. destruct (ascii_rstrip s) as [|c' r] eqn:E.
  - destruct (isspace c) eqn:Ec; [reflexivity|].
    cbn [ascii_rstrip]. now rewrite Ec.
  - cbn [ascii_rstrip]. cbn [ascii_rstrip] in IH. rewrite IH. reflexivity.
Qed.

(** What [strip] returns does not start with white space... *)
Lemma strip_head s c r : ascii_strip s = String c r -> isspace c = false.
Proof.
  unfold ascii_strip.
  destruct (ascii_lstrip s) as [|c' r'] eqn:E; [discriminate|].
  assert (Hc := @lstrip_head s c' r' E).
  destruct (@rstrip_head c' r' Hc) as (r'' & ->). now intros [= <- _].
Qed.

(** ... and does not end with white space. *)
Lemma strip_last s r c :
  ascii_strip s = r ++ String c EmptyString -> isspace c = false.
Proof. unfold ascii_strip. apply rstrip_last. Qed.

Lemma strip_idem s : ascii_strip (ascii_strip s) = ascii_strip s.
Proof.
  unfold ascii_strip.
  destruct (ascii_lstrip s) as [|c r] eqn:E; [reflexivity|].
  assert (Hc := @lstrip_head s c r E).
  destruct (@rstrip_head c r Hc) as (r' & Hr). rewrite Hr.
  cbn [ascii_lstrip]. rewrite Hc, <- Hr. apply rstrip_idem.
Qed.

(** [lstrip] removes white space from the front, [rstrip] from the end,
    and nothing else. *)
Lemma lstrip_decompose s :
  exists pre, s = pre ++ ascii_lstrip s /\ all_space pre = true.
Proof.
  induction s as [|c s (pre & Hs & Hpre)]; [now exists EmptyString|].
  cbn [ascii_lstrip]. destruct (isspace c) eqn:Ec.
  - exists (String c pre). cbn [append all_space]. rewrite Ec, Hpre.
    split; [now f_equal|reflexivity].
  - now exists EmptyString.
Qed.

Lemma rstrip_decompose s :
  exists post, s = ascii_rstrip s ++ post /\ all_space post = true.
Proof.
  induction s as [|c s (post & Hs & Hpost)]; [now exists EmptyString|].
  cbn [ascii_rstrip]. destruct (ascii_rstrip s) as [|c' r] eqn:E.
  - destruct (isspace c) eqn:Ec.
    + exists (String c post). cbn [append all_space]. rewrite Ec, Hpost.
      cbn [append] in Hs. split; [now f_equal|reflexivity].
    + exists post. cbn [append] in *. split; [now f_equal|exact Hpost].
  - exists post. cbn [append] in *. split; [now f_equal|exact Hpost].
Qed.

Lemma strip_decompose s :
  exists pre post,
    s = pre ++ ascii_strip s ++ post /\
    all_space pre = true /\ all_space post = true.
Proof.
  destruct (lstrip_decompose s) as (pre & Hs & Hpre).
  destruct (rstrip_decompose (ascii_lstrip s)) as (post & Hl & Hpost).
  exists pre, post. unfold ascii_strip. rewrite <- Hl. tauto.
Qed.

Lemma lstrip_space_app pre s :
  all_space pre = true -> ascii_lstrip (pre ++ s) = ascii_lstrip s.
Proof.
  induction pre as [|c pre IH]; cbn; [reflexivity|].
  intros H. apply andb_prop in H. destruct H as [Hc Hpre].
  rewrite Hc. now apply IH.
Qed.

Lemma rstrip_all_space s : all_space s = true -> ascii_rstrip s = EmptyString.
Proof.
  induction s as [|c s IH]; cbn; [reflexivity|].
  intros H. apply andb_prop in H. destruct H as [Hc Hs].
  now rewrite (IH Hs), Hc.
Qed.

Lemma rstrip_app_space s post :
  all_space post = true -> ascii_rstrip (s ++ post) = ascii_rstrip s.
Proof.
  intros H. induction s as [|c s IH]; cbn.
  - now apply rstrip_all_space.
  - now rewrite IH.
Qed.

Lemma strip_space_app pre s :
  all_space pre = true -> ascii_strip (pre ++ s) = ascii_strip s.
Proof. intros H. unfold ascii_strip. now rewrite lstrip_space_app. Qed.

Lemma strip_app_space s post :
  all_space post = true -> ascii_strip (s ++ post) = ascii_strip s.
Proof.
  intros H. unfold ascii_strip.
  induction s as [|c s IH]; cbn [append ascii_lstrip].
  - assert (E : ascii_lstrip post = ascii_lstrip EmptyString).
    { rewrite <- (lstrip_space_app post EmptyString H).
      f_equal. clear. induction post as [|c p IH]; cbn; congruence. }
    now rewrite E.
  - destruct (isspace c); [exact IH|].
    now apply (rstrip_app_space (String c s)).
Qed.

End PyStrFacts.

(* ===================================================================== *)
(** ** The resolver: the two lookups through [pycountry] *)
(* ===================================================================== *)

Section Resolver.
Context `{PY : Interpreter} `{PL : Pathlib} `{PC : Pycountry}.

(** On ASCII text the key of the lookups is the text trimmed and
    upper-cased by the functions of [PyStr]. *)
Lemma normal_form_ascii s :
  PyStr.is_ascii s = true ->
  str_upper (str_strip s) = PyStr.ascii_upper (PyStr.ascii_strip s).
Proof.
  intros Hs. rewrite (str_strip_ascii s Hs).
  apply str_upper_ascii. now apply PyStrFacts.is_ascii_strip.
Qed.

(** An integer of at most 640 digits is converted, whatever the limit. *)
Lemma printable_small z : (digits z <= 640)%nat -> printable z = true.
Proof.
  intros Hz. unfold printable.
  destruct int_max_str_digits_range as [->|Hmax]; [reflexivity|].
  apply orb_true_iff. right. apply Nat.leb_le. lia.
Qed.

(** C2 (as amended).  [get_iso_code_from_country_name] returns for every
    name: the [alpha_3] of the first fuzzy match, or [None].  It logs an
    error through [logger.error] only when the search raises something
    other than a [LookupError]; when there is no match (the search raises
    [LookupError], or returns no country) it returns [None] and prints
    nothing. *)
Theorem name_to_code_logs_only_internal_errors country_name h :
  let run := get_iso_code_from_country_name country_name h in
  (exists r, result run = Returns r) /\
  (forall c cs,
      countries_search_fuzzy country_name = Returns (c :: cs) ->
      run = (Returns (Some (alpha_3 c)), [SearchFuzzy country_name])) /\
  (countries_search_fuzzy country_name = Returns [] ->
   run = (Returns None, [SearchFuzzy country_name])) /\
  (forall e,
      countries_search_fuzzy country_name = Raises e ->
      is_LookupError e = true ->
      run = (Returns None, [SearchFuzzy country_name])) /\
  (forall e,
      countries_search_fuzzy country_name = Raises e ->
      is_LookupError e = false ->
      run = (Returns None,
             SearchFuzzy country_name
             :: events (logger_error (msg_name_lookup_error country_name e)
                                     (h ++ [SearchFuzzy country_name])))).
Proof.
  intros run. subst run.
  unfold get_iso_code_from_country_name, try_except, bind, call.
  split; [|split; [|split; [|split]]].
  - destruct (countries_search_fuzzy country_name) as [[|c cs]|e]; cbn.
    + now exists None.
    + now exists (Some (alpha_3 c)).
    + destruct (is_LookupError e); now exists None.
  - intros c cs ->. reflexivity.
  - intros ->. reflexivity.
  - intros e -> ->. reflexivity.
  - intros e -> ->. reflexivity.
Qed.

(** C5.  For a string [s], [get_country_name_from_iso_code] looks up
    [s.strip().upper()]: first by [alpha_2]; by [alpha_3] only when the
    first lookup returned nothing.  It returns the [name] of the first
    lookup that finds a country, and [None] when neither finds one.  For
    ASCII text the key is [s] without the white space at its two ends
    (what is removed is white space, what is left neither starts nor ends
    with white space), with every lower-case letter replaced by its
    upper-case form and every other character kept; trimming or
    upper-casing the key again does not change it. *)
Theorem code_to_name_tries_alpha_2_then_alpha_3 (s : string) h :
  let code := str_upper (str_strip s) in
  let run := get_country_name_from_iso_code (PyStr s) h in
  (PyStr.is_ascii s = true ->
   code = PyStr.ascii_upper (PyStr.ascii_strip s) /\
   (exists pre post,
       s = (pre ++ PyStr.ascii_strip s ++ post)%string /\
       all_space pre = true /\ all_space post = true) /\
   (forall c r, PyStr.ascii_strip s = String c r -> PyStr.isspace c = false) /\
   (forall r c, PyStr.ascii_strip s = (r ++ String c EmptyString)%string ->
                PyStr.isspace c = false) /\
   String.length code = String.length (PyStr.ascii_strip s) /\
   PyStr.has_lower code = false /\
   (PyStr.has_lower (PyStr.ascii_strip s) = false ->
    code = PyStr.ascii_strip s) /\
   str_strip code = code /\ str_upper code = code) /\
  (forall c,
      countries_get_alpha_2 code = Returns (Some c) ->
      run = (Returns (Some (name c)), [GetAlpha2 code])) /\
  (forall c,
      countries_get_alpha_2 code = Returns None ->
      countries_get_alpha_3 code = Returns (Some c) ->
      run = (Returns (Some (name c)), [GetAlpha2 code; GetAlpha3 code])) /\
  (countries_get_alpha_2 code = Returns None ->
   countries_get_alpha_3 code = Returns None ->
   run = (Returns None, [GetAlpha2 code; GetAlpha3 code])).
Proof.
  intros code run. subst run.
  unfold get_country_name_from_iso_code, str, try_except, bind, call.
  cbn [py_str]. fold code.
  split; [|split; [|split]].
  - intros Hs. assert (Hcode := normal_form_ascii s Hs). fold code in Hcode.
    assert (Hasc : PyStr.is_ascii code = true).
    { rewrite Hcode, PyStrFacts.is_ascii_upper.
      now apply PyStrFacts.is_ascii_strip. }
    split; [exact Hcode|]. split; [apply PyStrFacts.strip_decompose|].
    split; [apply PyStrFacts.strip_head|].
    split; [apply PyStrFacts.strip_last|].
    split; [rewrite Hcode; apply PyStrFacts.length_upper|].
    split; [rewrite Hcode; apply PyStrFacts.has_lower_upper|].
    split; [intros Hl; rewrite Hcode; now apply PyStrFacts.upper_no_lower|].
    split.
    + rewrite (str_strip_ascii code Hasc), Hcode.
      now rewrite PyStrFacts.strip_upper, PyStrFacts.strip_idem.
    + rewrite (str_upper_ascii code Hasc), Hcode.
      apply PyStrFacts.upper_idem.
  - intros c ->. reflexivity.
  - intros c -> ->. reflexivity.
  - intros -> ->. reflexivity.
Qed.

(** C6.  When a lookup raises, [get_country_name_from_iso_code] returns
    [None]; it prints one line, the diagnostic of line 52, with [print]
    itself: the line is not one that [logger.info] or [logger.error]
    prints. *)
Theorem code_to_name_catches_lookup_error v s e h :
  py_str v = Returns s ->
  let code := str_upper (str_strip s) in
  countries_get_alpha_2 code = Raises e \/
  (countries_get_alpha_2 code = Returns None /\
   countries_get_alpha_3 code = Raises e) ->
  let run := get_country_name_from_iso_code v h in
  result run = Returns None /\
  stdout (events run) = [msg_code_lookup_error code e] /\
  (forall m h',
      events (logger_info m h') <> [Stdout (msg_code_lookup_error code e)]) /\
  (forall m h',
      events (logger_error m h') <> [Stdout (msg_code_lookup_error code e)]).
Proof.
  intros Hs code Hraise run. subst run.
  unfold get_country_name_from_iso_code, str, try_except, bind, call.
  rewrite Hs. fold code.
  split; [|split; [|split]].
  - destruct Hraise as [->|[-> ->]]; reflexivity.
  - destruct Hraise as [->|[-> ->]]; reflexivity.
  - intros m h'. cbn. discriminate.
  - intros m h'. cbn. discriminate.
Qed.

(** C10 (as amended).  [get_country_name_from_iso_code] takes any value
    that [str()] can convert, among them every string, every boolean,
    [None] and every integer within the limit of digits of the
    interpreter (which is never below 640 digits): it returns without raising and looks up the trimmed,
    upper-cased result of [str()], as it does for that string itself.  The
    conversion of line 34 stands before the [try], so when [str()] raises
    (for an object whose [__str__] raises, and for an integer of more
    digits than the limit) the call raises. *)
Theorem code_to_name_total_when_str_succeeds v h :
  (forall s,
      py_str v = Returns s ->
      (exists r, result (get_country_name_from_iso_code v h) = Returns r) /\
      get_country_name_from_iso_code v h
      = get_country_name_from_iso_code (PyStr s) h /\
      exists rest,
        events (get_country_name_from_iso_code v h)
        = GetAlpha2 (str_upper (str_strip s)) :: rest) /\
  (forall e,
      py_str v = Raises e ->
      get_country_name_from_iso_code v h = (Raises e, [])) /\
  ((exists s, py_str v = Returns s) \/
   (exists e, v = PyObject (Raises e)) \/
   (exists z, v = PyInt z /\ printable z = false)) /\
  (* the values [str] converts *)
  py_str PyNone = Returns "None" /\
  (forall b, exists s, py_str (PyBool b) = Returns s) /\
  (forall s, py_str (PyStr s) = Returns s) /\
  (forall z, printable z = true -> py_str (PyInt z) = Returns (PyStr.of_Z z)) /\
  (forall z, printable z = false -> py_str (PyInt z) = Raises int_str_error) /\
  (forall z, (digits z <= 640)%nat -> printable z = true).
Proof.
  split; [|split; [|split; [|split; [|split; [|split; [|split; [|split]]]]]]].
  - intros s Hs.
    unfold get_country_name_from_iso_code, str, try_except, bind, call.
    cbn [py_str]. rewrite Hs.
    set (code := str_upper (str_strip s)).
    destruct (countries_get_alpha_2 code) as [[c|]|e]; cbn.
    + repeat split; eauto.
    + destruct (countries_get_alpha_3 code) as [[c|]|e]; cbn;
        repeat split; eauto.
    + repeat split; eauto.
  - intros e He.
    unfold get_country_name_from_iso_code, str, bind. now rewrite He.
  - destruct v as [| [] | z | s | [s|e]]; cbn [py_str]; eauto.
    unfold str_of_int. destruct (printable z) eqn:Hz; eauto.
  - reflexivity.
  - intros []; eexists; reflexivity.
  - reflexivity.
  - intros z Hz. cbn [py_str]. unfold str_of_int. now rewrite Hz.
  - intros z Hz. cbn [py_str]. unfold str_of_int. now rewrite Hz.
  - apply printable_small.
Qed.

End Resolver.

(* ===================================================================== *)
(** ** Runs in the small world *)
(* ===================================================================== *)

Module Runs.
Import Toy.

(** The level 0 can be converted, an [int] of 4301 digits cannot. *)
Example zero_printable : printable 0 = true.
Proof. reflexivity. Qed.

Lemma huge_not_printable : printable huge = false.
Proof.
  unfold printable, digits, PyStr.of_Z, huge.
  change (Z.of_int (Decimal.Pos huge_numeral))
    with (Z.of_N (Pos.of_uint huge_numeral)).
  rewrite Z.abs_eq by apply N2Z.is_nonneg.
  change (Z.of_N (Pos.of_uint huge_numeral))
    with (Z.of_int (Decimal.Pos huge_numeral)).
  rewrite DecimalZ.to_of. vm_compute. reflexivity.
Qed.

(** Both forms of a code, in any case and with spaces around, give the
    name. *)
Example code_to_name_us :
  result (get_country_name_from_iso_code (PyStr " us ") []) = Returns (Some "United States") /\
  result (get_country_name_from_iso_code (PyStr "USA") []) = Returns (Some "United States") /\
  result (get_country_name_from_iso_code (PyStr "US") []) = Returns (Some "United States").
Proof. repeat split. Qed.

(** The file of Canada is read from [D/CAN_ADM0_gbOpen.geojson]. *)
Example load_canada :
  load still_cache ["Canada"] []
  = (Returns [("Canada", 1%nat)],
     [Stdout ("INFO: " ++ msg_creating 0);
      SearchFuzzy "Canada";
      FsExists "D/CAN_ADM0_gbOpen.geojson";
      Stdout ("INFO: " ++ msg_loading "Canada" 0 "D/CAN_ADM0_gbOpen.geojson");
      FsRead "D/CAN_ADM0_gbOpen.geojson";
      Stdout ("INFO: " ++ msg_loaded "Canada" 0);
      Stdout ("INFO: " ++ msg_contents);
      Stdout ("INFO: " ++ msg_features "Canada" 1 0)]).
Proof. vm_compute. reflexivity. Qed.

(** A damaged file, an unknown name and a failing database are skipped;
    the keys keep the order of the input. *)
Example load_mixed :
  result (load still_cache
               ["United States"; "Canada"; "Nowhereland"; "Atlantis"] [])
  = Returns [("Canada", 1%nat)].
Proof. vm_compute. reflexivity. Qed.


(** C2, the claim as stated fails: "Nowhereland" has no match, the search
    raises [LookupError], and [get_iso_code_from_country_name] returns
    [None] without printing or logging anything. *)
Lemma name_to_code_no_match_logs_nothing :
  countries_search_fuzzy "Nowhereland"
  = Raises (mkException LookupError "Nowhereland") /\
  get_iso_code_from_country_name "Nowhereland" []
  = (Returns None, [SearchFuzzy "Nowhereland"]) /\
  ~ (exists line,
        In (Stdout line)
           (events (get_iso_code_from_country_name "Nowhereland" []))).
Proof.
  split; [reflexivity|]. split; [reflexivity|].
  intros (line & [H|[]]). discriminate H.
Qed.


(** C5 at the text " us" followed by a line feed: the key is "US", found
    by the first lookup. *)
Lemma code_to_name_us_witness :
  PyStr.is_ascii (" us" ++ PyStr.nl) = true /\
  str_upper (str_strip (" us" ++ PyStr.nl)) = "US" /\
  get_country_name_from_iso_code (PyStr (" us" ++ PyStr.nl)) []
  = (Returns (Some "United States"), [GetAlpha2 "US"]).
Proof.
  split; [reflexivity|].
  destruct (@code_to_name_tries_alpha_2_then_alpha_3 cpython posix db
              (" us" ++ PyStr.nl)%string [])
    as (Hkey & Hfirst & _).
  destruct (Hkey eq_refl) as (Hcode & _).
  split; [exact Hcode|].
  exact (Hfirst united_states eq_refl).
Defined.

(** C6 at the code "boom": the lookup by [alpha_2] raises. *)
Lemma code_to_name_boom_witness :
  py_str (PyStr "boom") = Returns "boom" /\
  countries_get_alpha_2 "BOOM" = Raises unavailable /\
  result (get_country_name_from_iso_code (PyStr "boom") []) = Returns None /\
  stdout (events (get_country_name_from_iso_code (PyStr "boom") []))
  = [msg_code_lookup_error "BOOM" unavailable].
Proof.
  split; [reflexivity|]. split; [reflexivity|].
  destruct (@code_to_name_catches_lookup_error cpython posix db
              (PyStr "boom") "boom" unavailable [] eq_refl
              (or_introl eq_refl))
    as (Hres & Hout & _).
  split; [exact Hres|exact Hout].
Defined.



Lemma still_cache_unchanging : unchanging still_cache.
Proof. intros h h' p. split; reflexivity. Qed.

(** C8 for the directory that does not change. *)
Lemma load_twice_witness :
  unchanging still_cache /\
  result (load still_cache ["Canada"; "United States"] [])
  = Returns [("Canada", 1%nat)] /\
  exists cat2,
    result (load still_cache ["Canada"; "United States"]
                 ([] ++ events (load still_cache ["Canada"; "United States"]
                                     [])))
    = Returns cat2 /\
    Dict.keys [("Canada", 1%nat)] = Dict.keys cat2 /\
    (forall k, Dict.get k [("Canada", 1%nat)] = Dict.get k cat2) /\
    [("Canada", 1%nat)] = cat2.
Proof.
  assert (Hres : result (load still_cache ["Canada"; "United States"] [])
                 = Returns [("Canada", 1%nat)]).
  { vm_compute. reflexivity. }
  split; [exact still_cache_unchanging|]. split; [exact Hres|].
  exact (proj2 (@load_twice_same_catalog cpython posix db still_cache
                  ["Canada"; "United States"] default_target_adm_level
                  default_release_type (AsStr "D") [] still_cache_unchanging)
               _ Hres).
Defined.

(** C9 for a file that grows between two reads: the entry of Canada holds
    the record of the second read. *)
Lemma load_canada_twice_witness :
  result (load growing_cache ["Canada"; "Canada"] [])
  = Returns [("Canada", 2%nat)] /\
  (1 < count_occ string_dec
         (map fst
            (successes
               (@outcomes posix db growing_cache 0 "gbOpen" "D"
                  [Stdout ("INFO: " ++ msg_creating 0)]
                  ["Canada"; "Canada"])))
         "Canada")%nat /\
  exists g,
    count_occ string_dec (Dict.keys [("Canada", 2%nat)]) "Canada" = 1%nat /\
    Dict.get "Canada" [("Canada", 2%nat)] = Some g.
Proof.
  assert (Hres : result (load growing_cache ["Canada"; "Canada"] [])
                 = Returns [("Canada", 2%nat)]).
  { vm_compute. reflexivity. }
  assert (Hcount : (1 < count_occ string_dec
                          (map fst
                             (successes
                                (@outcomes posix db growing_cache 0 "gbOpen"
                                   "D" [Stdout ("INFO: " ++ msg_creating 0)]
                                   ["Canada"; "Canada"])))
                          "Canada")%nat).
  { vm_compute. lia. }
  split; [exact Hres|]. split; [exact Hcount|].
  destruct (@repeated_name_keeps_last_record cpython posix db growing_cache
              ["Canada"; "Canada"] default_target_adm_level
              default_release_type (AsStr "D") [] "Canada"
              [("Canada", 2%nat)] Hres Hcount)
    as (g & Hone & Hget & _).
  exists g. split; assumption.
Defined.

(** C10, the claim as stated fails: an object whose [__str__] raises makes
    the call raise, before any lookup; so does an integer of 4301
    digits. *)
Lemma code_to_name_raises_on_unprintable :
  get_country_name_from_iso_code unprintable []
  = (Raises (mkException ValueError "no string form"), []) /\
  ~ (exists r,
        result (get_country_name_from_iso_code unprintable []) = Returns r) /\
  get_country_name_from_iso_code (PyInt huge) []
  = (Raises int_str_error, []) /\
  ~ (exists r,
        result (get_country_name_from_iso_code (PyInt huge) []) = Returns r).
Proof.
  assert (Hhuge : get_country_name_from_iso_code (PyInt huge) []
                  = (Raises int_str_error, [])).
  { unfold get_country_name_from_iso_code, str, bind. cbn [py_str].
    unfold str_of_int. now rewrite huge_not_printable. }
  split; [reflexivity|]. split; [intros (r & H); discriminate H|].
  split; [exact Hhuge|].
  rewrite Hhuge. intros (r & H). discriminate H.
Qed.

End Runs.

(* ===================================================================== *)
(** ** Further properties of the resolver *)
(* ===================================================================== *)

Section ResolverMore.
Context `{PY : Interpreter} `{PL : Pathlib} `{PC : Pycountry}.

(** X1.  On ASCII text the lookup by code ignores the case of the
    letters and the white space around the code: two texts that differ
    only in these give the same run. *)
Theorem code_to_name_ignores_case_and_spaces pre post s t h :
  PyStr.is_ascii (pre ++ s ++ post) = true ->
  PyStr.is_ascii t = true ->
  all_space pre = true ->
  all_space post = true ->
  PyStr.ascii_upper s = PyStr.ascii_upper t ->
  get_country_name_from_iso_code (PyStr (pre ++ s ++ post)) h
  = get_country_name_from_iso_code (PyStr t) h.
Proof.
  intros Ha Hat Hpre Hpost Hup.
  assert (E : str_upper (str_strip (pre ++ s ++ post))
              = str_upper (str_strip t)).
  { rewrite (normal_form_ascii _ Ha), (normal_form_ascii _ Hat).
    rewrite PyStrFacts.strip_space_app by exact Hpre.
    rewrite PyStrFacts.strip_app_space by exact Hpost.
    now rewrite <- !PyStrFacts.strip_upper, Hup. }
  unfold get_country_name_from_iso_code, str, bind. cbn [py_str].
  now rewrite E.
Qed.

(** X2.  A lookup by code makes at most two queries and prints at most
    one line; it prints nothing unless one of its queries raises. *)
Theorem code_to_name_prints_only_on_error v h :
  let run := get_country_name_from_iso_code v h in
  (length (code_lookups (events run)) <= 2)%nat /\
  (length (stdout (events run)) <= 1)%nat /\
  (stdout (events run) = [] <->
   ~ (exists s e,
         py_str v = Returns s /\
         (countries_get_alpha_2 (str_upper (str_strip s)) = Raises e \/
          (countries_get_alpha_2 (str_upper (str_strip s)) = Returns None /\
           countries_get_alpha_3 (str_upper (str_strip s)) = Raises e)))).
Proof.
  intros run. subst run.
  unfold get_country_name_from_iso_code, str, try_except, bind, call.
  destruct (py_str v) as [s|e0] eqn:Hs.
  2:{ cbn. repeat split; try lia.
      intros _ (s & e & [=] & _). }
  set (code := str_upper (str_strip s)).
  destruct (countries_get_alpha_2 code) as [[c|]|e] eqn:H2; cbn.
  - repeat split; try lia.
    intros _ (s' & e & [= <-] & [H|[H _]]); fold code in H; congruence.
  - destruct (countries_get_alpha_3 code) as [[c|]|e] eqn:H3; cbn.
    + repeat split; try lia.
      intros _ (s' & e & [= <-] & [H|[_ H]]); fold code in H; congruence.
    + repeat split; try lia.
      intros _ (s' & e & [= <-] & [H|[_ H]]); fold code in H; congruence.
    + repeat split; try lia; [discriminate|].
      intros Hno. exfalso. apply Hno. exists s, e. split; [reflexivity|].
      right. now split.
  - repeat split; try lia; [discriminate|].
    intros Hno. exfalso. apply Hno. exists s, e. split; [reflexivity|].
    now left.
Qed.

(** X3.  The two lookups compose: when the fuzzy search finds a country
    whose [alpha_3] is in normal form, is no [alpha_2] code and is the
    code under which the database holds this country, the lookup by code
    of what the lookup by name returned gives the [name] of this
    country. *)
Theorem name_to_code_then_code_to_name country_name c cs h :
  countries_search_fuzzy country_name = Returns (c :: cs) ->
  str_upper (str_strip (alpha_3 c)) = alpha_3 c ->
  countries_get_alpha_2 (alpha_3 c) = Returns None ->
  countries_get_alpha_3 (alpha_3 c) = Returns (Some c) ->
  let first := get_iso_code_from_country_name country_name h in
  exists code,
    result first = Returns (Some code) /\
    result (get_country_name_from_iso_code (PyStr code) (h ++ events first))
    = Returns (Some (name c)).
Proof.
  intros Hsearch Hnorm H2 H3 first. subst first.
  exists (alpha_3 c). split.
  - unfold get_iso_code_from_country_name, try_except, bind, call.
    now rewrite Hsearch.
  - unfold get_country_name_from_iso_code, str, try_except, bind, call.
    cbn [py_str]. now rewrite Hnorm, H2, H3.
Qed.

End ResolverMore.

(* ===================================================================== *)
(** ** Further properties of the loader *)
(* ===================================================================== *)

Section LoaderMore.
Context `{PY : Interpreter} `{PL : Pathlib} `{PC : Pycountry}
        `{GP : @Geopandas PL}.



Lemma report_events_stdout lvl cat :
  report_events lvl cat = map Stdout (closing_lines lvl cat).
Proof.
  destruct cat as [|kv cat]; [reflexivity|].
  unfold report_events, closing_lines. rewrite map_map.
  apply map_ext. intros [k g]. unfold report_line. cbn [fst snd].
  destruct (isinstance_GeoDataFrame g); reflexivity.
Qed.

Lemma stdout_map_Stdout (ls : list string) :
  stdout (map (@Stdout PL) ls) = ls.
Proof. induction ls as [|l ls IH]; cbn; congruence. Qed.




Lemma keys_incl_names lvl rel base names h k :
  In k (Dict.keys (assign_all (successes (outcomes lvl rel base h names))
                              Dict.empty)) ->
  In k names.
Proof.
  rewrite keys_assign_all, in_first_occurrences. intros Hin.
  destruct (successes_names _ _ Hin) as (o & Ho & _).
  now apply (outcomes_in_names _ _ _ _ _ _ _ Ho).
Qed.

(** X4.  The keys of the catalog a call returns are input names, each
    once: the catalog never has more entries than the input has names. *)
Theorem catalog_keys_distinct_input_names names lvl rel folder h cat :
  result (load_country_boundaries_to_dict names lvl rel folder h)
  = Returns cat ->
  NoDup (Dict.keys cat) /\
  incl (Dict.keys cat) names /\
  (length cat <= length names)%nat.
Proof.
  intros Hres.
  destruct (load_returns_inv _ _ _ _ _ Hres) as (_ & _ & ->).
  rewrite after_items_successes.
  assert (Hnd : NoDup (Dict.keys
                         (assign_all
                            (successes
                               (outcomes lvl rel (Path_of folder)
                                  (h ++ [Stdout ("INFO: " ++ msg_creating lvl)])
                                  names)) Dict.empty))).
  { rewrite keys_assign_all. apply NoDup_first_occurrences. }
  assert (Hincl : incl (Dict.keys
                          (assign_all
                             (successes
                                (outcomes lvl rel (Path_of folder)
                                   (h ++ [Stdout ("INFO: " ++ msg_creating lvl)])
                                   names)) Dict.empty)) names).
  { intros k. apply keys_incl_names. }
  split; [exact Hnd|]. split; [exact Hincl|].
  rewrite <- (length_map fst). now apply NoDup_incl_length.
Qed.








(** X7.  The output of a call that returns starts with the line of line
    102 and ends with the line of line 124 followed by the report: one
    line for each entry of the catalog returned, in the order of its keys,
    or the one line of line 132 when the catalog is empty. *)
Theorem output_ends_with_report_of_catalog names lvl rel folder h cat :
  result (load_country_boundaries_to_dict names lvl rel folder h)
  = Returns cat ->
  exists middle,
    stdout (events (load_country_boundaries_to_dict names lvl rel folder h))
    = ("INFO: " ++ msg_creating lvl)%string
      :: middle ++ ("INFO: " ++ msg_contents)%string :: closing_lines lvl cat /\
    length (closing_lines lvl cat) = Nat.max 1 (length cat).
Proof.
  intros Hres.
  assert (Hev := load_returns_events _ _ _ _ _ Hres). cbv zeta in Hev.
  eexists. rewrite Hev. split.
  - cbn [stdout]. rewrite stdout_app. cbn [stdout].
    rewrite report_events_stdout, stdout_map_Stdout. reflexivity.
  - destruct cat as [|kv cat]; [reflexivity|].
    unfold closing_lines. rewrite length_map. cbn [length]. lia.
Qed.

End LoaderMore.

(* ===================================================================== *)
(** ** What goes through the logger *)
(* ===================================================================== *)

Lemma prefix_empty s : String.prefix EmptyString s = true.
Proof. destruct s; reflexivity. Qed.

Lemma info_text_is_info m : is_info_text ("INFO: " ++ m) = true.
Proof. unfold is_info_text. cbn. apply prefix_empty. Qed.

Lemma info_text_not_error m : is_error_text ("INFO: " ++ m) = false.
Proof. reflexivity. Qed.

Lemma error_text_is_error m : is_error_text ("ERROR: " ++ m) = true.
Proof. unfold is_error_text. cbn. apply prefix_empty. Qed.

Lemma error_text_not_info m : is_info_text ("ERROR: " ++ m) = false.
Proof. reflexivity. Qed.

Section LogTexts.
Context `{PY : Interpreter} `{PL : Pathlib} `{PC : Pycountry}
        `{GP : @Geopandas PL}.

Lemma item_texts lvl rel base h n :
  forallb logged (stdout (item_events lvl rel base h n)) = true /\
  length (filter is_error_text (stdout (item_events lvl rel base h n)))
  = (if raised (classify lvl rel base h n) then 1 else 0)%nat.
Proof.
  unfold item_events.
  destruct (classify lvl rel base h n); cbn [stdout forallb filter raised];
    unfold logged;
    rewrite ?info_text_is_info, ?info_text_not_error, ?error_text_is_error,
      ?error_text_not_info; split; reflexivity.
Qed.

Lemma loop_texts lvl rel base names : forall h,
  forallb logged (stdout (loop_events lvl rel base h names)) = true /\
  length (filter is_error_text (stdout (loop_events lvl rel base h names)))
  = length (filter (fun no => raised (snd no))
                   (outcomes lvl rel base h names)).
Proof.
  induction names as [|n ns IH]; intros h; cbn [loop_events outcomes].
  - split; reflexivity.
  - rewrite stdout_app, forallb_app, filter_app, length_app.
    destruct (item_texts lvl rel base h n) as (H1 & H2).
    destruct (IH (h ++ item_events lvl rel base h n)) as (H3 & H4).
    rewrite H1, H2. cbn [filter snd].
    destruct (stops _).
    + cbn [stdout forallb filter length]. split; [reflexivity|].
      destruct (raised (classify lvl rel base h n)); reflexivity.
    + rewrite H3, H4. split; [reflexivity|].
      destruct (raised (classify lvl rel base h n)); reflexivity.
Qed.

Lemma closing_lines_logged lvl (cat : Dict.t GeoDataFrame) :
  forallb logged (closing_lines lvl cat) = true /\
  filter is_error_text (closing_lines lvl cat) = [].
Proof.
  destruct cat as [|kv cat].
  - split; [|reflexivity]. cbn [closing_lines forallb]. unfold logged.
    now rewrite info_text_is_info.
  - unfold closing_lines. generalize (kv :: cat). intros l.
    induction l as [|[k g] l [IH1 IH2]]; [split; reflexivity|].
    cbn [map forallb filter fst snd].
    destruct (isinstance_GeoDataFrame g); unfold logged;
      rewrite info_text_is_info, info_text_not_error; cbn; now split.
Qed.

(** X8.  Every text the loader prints (one for each call of [print]) is
    a text of the logger: it starts with "INFO: " or with "ERROR: ".  The
    texts that start with "ERROR: " are as many as the passes of the loop
    in which the database or the reader raised an exception that was
    caught and logged (for a level that [str] cannot convert nothing is
    printed at all). *)
Theorem loader_prints_through_logger names lvl rel folder h :
  let es := events (load_country_boundaries_to_dict names lvl rel folder h) in
  let os := outcomes lvl rel (Path_of folder)
                     (h ++ [Stdout ("INFO: " ++ msg_creating lvl)]) names in
  forallb logged (stdout es) = true /\
  length (filter is_error_text (stdout es))
  = (if printable lvl
     then length (filter (fun no => raised (snd no)) os)
     else 0%nat).
Proof.
  intros es os. subst es os.
  assert (Hev := load_events names lvl rel folder h). cbv zeta in Hev.
  rewrite Hev. clear Hev.
  destruct (printable lvl); [|split; reflexivity].
  cbn [stdout]. rewrite stdout_app.
  destruct (loop_texts lvl rel (Path_of folder) names
              (h ++ [Stdout ("INFO: " ++ msg_creating lvl)])) as (H1 & H2).
  destruct (closing_lines_logged lvl
              (after_items Dict.empty
                 (outcomes lvl rel (Path_of folder)
                    (h ++ [Stdout ("INFO: " ++ msg_creating lvl)]) names)))
    as (H3 & H4).
  destruct (aborted _).
  - cbn [stdout]. rewrite app_nil_r. split.
    + cbn [forallb]. unfold logged at 1. rewrite info_text_is_info.
      cbn [orb andb]. exact H1.
    + cbn [filter]. rewrite info_text_not_error. exact H2.
  - cbn [stdout]. rewrite report_events_stdout, stdout_map_Stdout. split.
    + cbn [forallb]. rewrite forallb_app. cbn [forallb].
      unfold logged at 1 3. rewrite !info_text_is_info. cbn [orb andb].
      now rewrite H1, H3.
    + cbn [filter]. rewrite info_text_not_error, filter_app. cbn [filter].
      rewrite info_text_not_error, H4, app_nil_r. exact H2.
Qed.

End LogTexts.

(* ===================================================================== *)
(** ** Loading a list in two parts *)
(* ===================================================================== *)

Section DictUpdate.
Variable V : Type.
Implicit Types (d : Dict.t V) (k : string).

Lemma dict_ext d1 : forall d2,
  NoDup (Dict.keys d1) ->
  Dict.keys d1 = Dict.keys d2 ->
  (forall k, Dict.get k d1 = Dict.get k d2) ->
  d1 = d2.
Proof.
  induction d1 as [|[k v] d1 IH]; intros [|[k' v'] d2] Hnd Hkeys Hget;
    try discriminate; [reflexivity|].
  cbn in Hkeys. injection Hkeys as <- Hkeys.
  inversion Hnd as [|? ? Hnin Hnd']; subst.
  assert (Hv := Hget k). cbn in Hv. rewrite String.eqb_refl in Hv.
  injection Hv as <-. f_equal. apply IH; [exact Hnd'|exact Hkeys|].
  intros k'. destruct (String.eqb_spec k' k) as [->|Hne].
  - rewrite (proj2 (get_none_not_key k d1) Hnin).
    assert (Hnin2 : ~ In k (Dict.keys d2)).
    { unfold Dict.keys in *. now rewrite <- Hkeys. }
    now rewrite (proj2 (get_none_not_key k d2) Hnin2).
  - specialize (Hget k'). cbn in Hget.
    destruct (String.eqb_spec k' k); [contradiction|exact Hget].
Qed.

Lemma last_value_get d k :
  NoDup (Dict.keys d) -> last_value k d = Dict.get k d.
Proof.
  induction d as [|[k' v] d IH]; cbn; [reflexivity|].
  intros Hnd. inversion Hnd as [|? ? Hnin Hnd']; subst.
  rewrite (IH Hnd').
  destruct (String.eqb_spec k k') as [->|Hne].
  - now rewrite (proj2 (get_none_not_key k' d) Hnin).
  - destruct (Dict.get k d); reflexivity.
Qed.

Lemma first_occurrences_idem l :
  first_occurrences (first_occurrences l) = first_occurrences l.
Proof. apply first_occurrences_NoDup, NoDup_first_occurrences. Qed.

Lemma first_occurrences_app_inner a b :
  first_occurrences (a ++ first_occurrences b) = first_occurrences (a ++ b).
Proof.
  induction a as [|x a IH]; cbn [app].
  - apply first_occurrences_idem.
  - rewrite !first_occurrences_cons. now rewrite IH.
Qed.

Lemma NoDup_keys_assign_all (kvs : list (string * V)) d :
  NoDup (Dict.keys d) -> NoDup (Dict.keys (assign_all kvs d)).
Proof.
  intros Hnd. rewrite keys_assign_all_from by exact Hnd.
  apply NoDup_first_occurrences.
Qed.

(** Assigning a list of pairs, or the dictionary made of them. *)
Lemma assign_all_collapse (kvs : list (string * V)) d :
  NoDup (Dict.keys d) ->
  assign_all (assign_all kvs Dict.empty) d = assign_all kvs d.
Proof.
  intros Hnd.
  assert (Hnd0 : NoDup (Dict.keys (assign_all kvs (@Dict.empty V)))).
  { apply NoDup_keys_assign_all. constructor. }
  apply dict_ext.
  - now apply NoDup_keys_assign_all.
  - rewrite !keys_assign_all_from by exact Hnd.
    fold (Dict.keys (assign_all kvs (@Dict.empty V))).
    rewrite keys_assign_all. apply first_occurrences_app_inner.
  - intros k. rewrite !get_assign_all.
    rewrite (@last_value_get _ k Hnd0), get_assign_all. cbn [Dict.get Dict.empty].
    destruct (last_value k kvs); reflexivity.
Qed.

End DictUpdate.


Section TwoParts.
Context `{PY : Interpreter} `{PL : Pathlib} `{PC : Pycountry}
        `{GP : @Geopandas PL}.

Lemma aborted_app (os1 os2 : list (string * item_outcome)) :
  aborted (os1 ++ os2)
  = match aborted os1 with Some e => Some e | None => aborted os2 end.
Proof.
  induction os1 as [|[n o] os1 IH]; [reflexivity|].
  cbn [app]. rewrite !aborted_cons. destruct o; try exact IH. reflexivity.
Qed.

(** When no pass for the first part raised, the loop goes on with the
    second part. *)
Lemma outcomes_app lvl rel base names1 names2 : forall h,
  aborted (outcomes lvl rel base h names1) = None ->
  outcomes lvl rel base h (names1 ++ names2)
  = outcomes lvl rel base h names1
    ++ outcomes lvl rel base (h ++ loop_events lvl rel base h names1) names2.
Proof.
  induction names1 as [|n ns IH]; intros h; cbn [app outcomes loop_events].
  - now rewrite app_nil_r.
  - rewrite aborted_cons.
    destruct (classify lvl rel base h n) eqn:Hc; cbn [stops]; intros Ha;
      try discriminate; rewrite (IH _ Ha), <- app_assoc; reflexivity.
Qed.

Lemma successes_app (os1 os2 : list (string * item_outcome)) :
  successes (os1 ++ os2) = successes os1 ++ successes os2.
Proof.
  induction os1 as [|[n o] os1 IH]; [reflexivity|].
  cbn [app successes]. destruct o; rewrite IH; reflexivity.
Qed.

Lemma assign_all_app V (l1 l2 : list (string * V)) d :
  assign_all (l1 ++ l2) d = assign_all l2 (assign_all l1 d).
Proof. unfold assign_all. apply fold_left_app. Qed.

(** X9.  Against a directory that does not change, when the calls for
    two lists return, the call for the list made of the two parts returns
    the catalog of the first part updated with the catalog of the second,
    as [dict.update] does: the keys of the first keep their places, the
    new keys follow, and a key of both holds the record of the second. *)
Theorem load_of_two_parts_is_update names1 names2 lvl rel folder h cat1 cat2 :
  unchanging GP ->
  result (load_country_boundaries_to_dict names1 lvl rel folder h)
  = Returns cat1 ->
  result (load_country_boundaries_to_dict names2 lvl rel folder h)
  = Returns cat2 ->
  result (load_country_boundaries_to_dict (names1 ++ names2) lvl rel
                                          folder h)
  = Returns (dict_update cat1 cat2).
Proof.
  intros U Hres1 Hres2.
  destruct (load_returns_inv _ _ _ _ _ Hres1) as (Hp & Ha1 & ->).
  destruct (load_returns_inv _ _ _ _ _ Hres2) as (_ & Ha2 & ->).
  assert (H12 := load_run (names1 ++ names2) lvl rel folder h Hp).
  cbv zeta in H12.
  set (h0 := h ++ [Stdout ("INFO: " ++ msg_creating lvl)]) in *.
  rewrite (outcomes_app lvl rel (Path_of folder) names1 names2 h0 Ha1) in H12.
  rewrite (outcomes_unchanging lvl rel (Path_of folder) names2 U
             (h0 ++ loop_events lvl rel (Path_of folder) h0 names1) h0) in H12.
  rewrite aborted_app, Ha1, Ha2 in H12. rewrite H12.
  unfold result. cbn [fst]. f_equal.
  rewrite !after_items_successes.
  rewrite successes_app, assign_all_app.
  unfold dict_update. symmetry. apply assign_all_collapse.
  apply NoDup_keys_assign_all. constructor.
Qed.

End TwoParts.

(* ===================================================================== *)
(** ** The name of the cache file *)
(* ===================================================================== *)

Section FileNames.

Lemma length_append_str (s t : string) :
  String.length (s ++ t) = (String.length s + String.length t)%nat.
Proof. induction s as [|c s IH]; cbn; [reflexivity|now rewrite IH]. Qed.

Lemma append_cancel_l (t s1 s2 : string) :
  (t ++ s1 = t ++ s2)%string -> s1 = s2.
Proof.
  induction t as [|c t IH]; cbn; [exact (fun H => H)|].
  intros [= H]. now apply IH.
Qed.

Lemma append_split_same_length (a a' b b' : string) :
  String.length a = String.length a' ->
  (a ++ b = a' ++ b')%string -> a = a' /\ b = b'.
Proof.
  revert a'. induction a as [|c a IH]; intros [|c' a']; cbn;
    try discriminate.
  - now split.
  - intros [= Hlen] [= -> H]. destruct (IH a' Hlen H) as [-> ->].
    now split.
Qed.

Lemma append_cancel_r (s1 s2 t : string) :
  (s1 ++ t = s2 ++ t)%string -> s1 = s2.
Proof.
  intros H.
  assert (Hlen : String.length s1 = String.length s2).
  { apply (f_equal String.length) in H. rewrite !length_append_str in H.
    lia. }
  now destruct (append_split_same_length _ _ _ _ Hlen H).
Qed.

(** Where a string without underscore ends and an underscore follows. *)
Lemma split_at_underscore (a a' r r' : string) :
  has_char "_" a = false ->
  has_char "_" a' = false ->
  (a ++ String "_" r = a' ++ String "_" r')%string ->
  a = a' /\ r = r'.
Proof.
  revert a'. induction a as [|c a IH]; intros [|c' a'] Ha Ha'; cbn.
  - intros [= ->]. now split.
  - intros [= <- _]. cbn in Ha'. discriminate.
  - intros [= -> _]. cbn in Ha. discriminate.
  - intros [= -> H]. cbn in Ha, Ha'.
    apply orb_false_elim in Ha. apply orb_false_elim in Ha'.
    destruct (IH a' (proj2 Ha) (proj2 Ha') H) as [-> ->]. now split.
Qed.

Lemma digits_no_underscore d :
  has_char "_" (NilEmpty.string_of_uint d) = false.
Proof. induction d; cbn; assumption || reflexivity. Qed.

Lemma of_Z_no_underscore z : has_char "_" (PyStr.of_Z z) = false.
Proof.
  unfold PyStr.of_Z, NilZero.string_of_int, NilZero.string_of_uint.
  destruct (Z.to_int z) as [d|d]; destruct d; cbn;
    try reflexivity; apply digits_no_underscore.
Qed.

Lemma of_Z_inj z1 z2 : PyStr.of_Z z1 = PyStr.of_Z z2 -> z1 = z2.
Proof.
  unfold PyStr.of_Z. intros H.
  assert (Hnn : forall z, Z.to_int z <> Decimal.Pos Decimal.Nil /\
                          Z.to_int z <> Decimal.Neg Decimal.Nil).
  { intros [|p|p]; cbn; split; try discriminate;
      intros [= E]; now apply (DecimalPos.Unsigned.to_uint_nonnil p). }
  assert (E : Some (Z.to_int z1) = Some (Z.to_int z2)).
  { rewrite <- (NilZero.isi (Z.to_int z1) (proj1 (Hnn z1)) (proj2 (Hnn z1))).
    rewrite <- (NilZero.isi (Z.to_int z2) (proj1 (Hnn z2)) (proj2 (Hnn z2))).
    now rewrite H. }
  injection E as E.
  rewrite <- (DecimalZ.of_to z1), <- (DecimalZ.of_to z2). now rewrite E.
Qed.

(** X10.  For one level and one release type, two different codes never
    share a cache file name. *)
Theorem file_names_differ_with_codes c1 c2 lvl rel :
  c1 <> c2 -> cache_file_name c1 lvl rel <> cache_file_name c2 lvl rel.
Proof.
  intros Hne H. apply Hne. unfold cache_file_name in H.
  now apply append_cancel_r in H.
Qed.

(** X11.  For codes of one length, as the three-letter codes are, the
    file name tells the code, the level and the release type: two requests
    that differ in one of them have different file names. *)
Theorem file_names_differ_for_codes_of_one_length c1 l1 r1 c2 l2 r2 :
  String.length c1 = String.length c2 ->
  c1 <> c2 \/ l1 <> l2 \/ r1 <> r2 ->
  cache_file_name c1 l1 r1 <> cache_file_name c2 l2 r2.
Proof.
  intros Hlen Hdiff H. unfold cache_file_name in H.
  destruct (append_split_same_length _ _ _ _ Hlen H) as [Hc H'].
  apply (append_cancel_l "_ADM") in H'.
  destruct (split_at_underscore _ _ _ _ (of_Z_no_underscore l1)
              (of_Z_no_underscore l2) H') as [Hl Hr].
  apply of_Z_inj in Hl. apply append_cancel_r in Hr.
  destruct Hdiff as [Hd|[Hd|Hd]]; contradiction.
Qed.

(** X12.  Without the condition on the lengths this fails: the release
    type is any string, and two requests that differ in code, level and
    release type can share one file name. *)
Theorem file_names_can_collide :
  exists c1 l1 r1 c2 l2 r2,
    c1 <> c2 /\ l1 <> l2 /\ r1 <> r2 /\
    cache_file_name c1 l1 r1 = cache_file_name c2 l2 r2.
Proof.
  exists "A", 1%Z, "b_ADM2_c", "A_ADM1_b", 2%Z, "c".
  repeat split; discriminate.
Qed.

End FileNames.

(* ===================================================================== *)
(** ** More runs in the small world *)
(* ===================================================================== *)

Module MoreRuns.
Import Toy.

(** X1 at " us " and "US". *)
Lemma code_to_name_padded_witness :
  PyStr.is_ascii (" " ++ "us" ++ " ") = true /\
  PyStr.is_ascii "US" = true /\
  all_space " " = true /\
  PyStr.ascii_upper "us" = PyStr.ascii_upper "US" /\
  get_country_name_from_iso_code (PyStr (" " ++ "us" ++ " ")) []
  = get_country_name_from_iso_code (PyStr "US") [].
Proof.
  split; [reflexivity|]. split; [reflexivity|].
  split; [reflexivity|]. split; [reflexivity|].
  exact (@code_to_name_ignores_case_and_spaces cpython posix db
           " " " " "us" "US" [] eq_refl eq_refl eq_refl eq_refl eq_refl).
Defined.

(** X3 at "Canada". *)
Lemma canada_round_trip_witness :
  countries_search_fuzzy "Canada" = Returns [canada] /\
  str_upper (str_strip "CAN") = "CAN" /\
  countries_get_alpha_2 "CAN" = Returns None /\
  countries_get_alpha_3 "CAN" = Returns (Some canada) /\
  exists code,
    result (get_iso_code_from_country_name "Canada" [])
    = Returns (Some code) /\
    result (get_country_name_from_iso_code (PyStr code)
              ([] ++ events (get_iso_code_from_country_name "Canada" [])))
    = Returns (Some "Canada").
Proof.
  split; [reflexivity|]. split; [reflexivity|].
  split; [reflexivity|]. split; [reflexivity|].
  exact (@name_to_code_then_code_to_name cpython posix db "Canada" canada []
           [] eq_refl eq_refl eq_refl eq_refl).
Defined.

(** X4 at a list in which Canada occurs twice: one key. *)
Lemma catalog_keys_witness :
  result (load still_cache ["United States"; "Canada"; "Canada"] [])
  = Returns [("Canada", 1%nat)] /\
  NoDup (Dict.keys [("Canada", 1%nat)]) /\
  incl (Dict.keys [("Canada", 1%nat)]) ["United States"; "Canada"; "Canada"] /\
  (length [("Canada", 1%nat)] <= 3)%nat.
Proof.
  assert (Hres : result (load still_cache
                              ["United States"; "Canada"; "Canada"] [])
                 = Returns [("Canada", 1%nat)]).
  { vm_compute. reflexivity. }
  split; [exact Hres|].
  exact (@catalog_keys_distinct_input_names cpython posix db still_cache
           ["United States"; "Canada"; "Canada"] default_target_adm_level
           default_release_type (AsStr "D") [] [("Canada", 1%nat)]
           Hres).
Defined.


(** X7 at the same list: the report has one line, for Canada. *)
Lemma output_report_witness :
  result (load still_cache ["United States"; "Canada"; "Canada"] [])
  = Returns [("Canada", 1%nat)] /\
  @closing_lines posix still_cache 0 [("Canada", 1%nat)]
  = [("INFO: " ++ msg_features "Canada" 1 0)%string] /\
  exists middle,
    stdout (events (load still_cache ["United States"; "Canada"; "Canada"]
                         []))
    = ("INFO: " ++ msg_creating 0)%string
      :: middle ++ ("INFO: " ++ msg_contents)%string
      :: @closing_lines posix still_cache 0 [("Canada", 1%nat)].
Proof.
  assert (Hres : result (load still_cache
                              ["United States"; "Canada"; "Canada"] [])
                 = Returns [("Canada", 1%nat)]).
  { vm_compute. reflexivity. }
  split; [exact Hres|]. split; [reflexivity|].
  destruct (@output_ends_with_report_of_catalog cpython posix db still_cache
              ["United States"; "Canada"; "Canada"] default_target_adm_level
              default_release_type (AsStr "D") [] [("Canada", 1%nat)]
              Hres)
    as (middle & Hout & _).
  now exists middle.
Defined.

(** X9 for the directory that does not change. *)
Lemma load_two_parts_witness :
  unchanging still_cache /\
  result (load still_cache ["Canada"] []) = Returns [("Canada", 1%nat)] /\
  result (load still_cache ["United States"; "Canada"] [])
  = Returns [("Canada", 1%nat)] /\
  result (load still_cache (["Canada"] ++ ["United States"; "Canada"]) [])
  = Returns (dict_update [("Canada", 1%nat)] [("Canada", 1%nat)]).
Proof.
  assert (H1 : result (load still_cache ["Canada"] [])
               = Returns [("Canada", 1%nat)]).
  { vm_compute. reflexivity. }
  assert (H2 : result (load still_cache ["United States"; "Canada"] [])
               = Returns [("Canada", 1%nat)]).
  { vm_compute. reflexivity. }
  split; [exact Runs.still_cache_unchanging|].
  split; [exact H1|]. split; [exact H2|].
  exact (@load_of_two_parts_is_update cpython posix db still_cache ["Canada"]
           ["United States"; "Canada"] default_target_adm_level
           default_release_type (AsStr "D") [] _ _
           Runs.still_cache_unchanging H1 H2).
Defined.

(** X10 at the codes of Canada and the United States. *)
Lemma can_usa_file_names_witness :
  "CAN" <> "USA" /\
  cache_file_name "CAN" 0 "gbOpen" <> cache_file_name "USA" 0 "gbOpen".
Proof.
  assert (Hne : "CAN" <> "USA") by discriminate.
  split; [exact Hne|].
  exact (@file_names_differ_with_codes "CAN" "USA" 0 "gbOpen" Hne).
Defined.

(** X11 at two levels of Canada. *)
Lemma can_levels_file_names_witness :
  String.length "CAN" = String.length "CAN" /\
  (0 <> 1)%Z /\
  cache_file_name "CAN" 0 "gbOpen" <> cache_file_name "CAN" 1 "gbOpen".
Proof.
  assert (Hne : (0 <> 1)%Z) by discriminate.
  split; [reflexivity|]. split; [exact Hne|].
  exact (@file_names_differ_for_codes_of_one_length "CAN" 0 "gbOpen"
           "CAN" 1 "gbOpen" eq_refl (or_intror (or_introl Hne))).
Defined.

End MoreRuns.
